(** * The RISC-V PLIC driver of [interrupts/plic.c]

    A shallow embedding of the driver.  The controller's registers are
    memory-mapped 32-bit words; the driver reaches them through [volatile]
    pointers computed from [PLIC_IOBASE].  The model keeps the register
    file as a map from addresses to words, records every volatile access
    in program order, and records what the driver prints on the console.
    A register reads back what was last stored in it, as when the window
    at [PLIC_IOBASE] is backed by ordinary memory; what the controller
    itself does on a claim or a completion is outside the driver. *)

From Stdlib Require Import String ZArith List Lia Bool.
Import ListNotations.
Local Open Scope Z_scope.

(** ** Machine integers

    [uint32_t] and [uint64_t] values are integers reduced modulo the word
    size; [int] is the two's complement reading of 32 bits. *)

Definition u32 (z : Z) : Z := z mod 2 ^ 32.
Definition u64 (z : Z) : Z := z mod 2 ^ 64.
Definition s32 (z : Z) : Z := (z + 2 ^ 31) mod 2 ^ 32 - 2 ^ 31.

(** ** Registers, accesses and console *)

(** One volatile access: a 32-bit load from an address, or a 32-bit store
    of a value to an address. *)
Inductive access : Type :=
| Rd (addr : Z)
| Wr (addr : Z) (val : Z).

(** Modelled from the spec: [console.h] is not among the sources.  Its
    [trace] and [debug] macros are taken to hand a format and its arguments
    to the logging sink and to touch nothing else; [debug] is the
    diagnostic channel. *)
Inductive arg : Type :=
| AStr (s : string)
| AInt (z : Z).

Inductive message : Type :=
| TraceMsg (fmt : string) (args : list arg)
| DebugMsg (fmt : string) (args : list arg).

Record state : Type := mkState {
  mem : Z -> Z;
  accesses : list access;
  console : list message
}.

Definition access_addr (ev : access) : Z :=
  match ev with
  | Rd a => a
  | Wr a _ => a
  end.

Definition is_write (ev : access) : bool :=
  match ev with
  | Rd _ => false
  | Wr _ _ => true
  end.

(** ** Statements and functions

    A C statement either falls through to the next one or returns from the
    enclosing function; [R] is the function's result type. *)

Inductive outcome (R A : Type) : Type :=
| Next (a : A)
| Return (r : R).
Arguments Next {R A} a.
Arguments Return {R A} r.

Definition stmt (R A : Type) : Type := state -> outcome R A * state.
Definition fn (R : Type) : Type := state -> R * state.

Definition ret {R A : Type} (a : A) : stmt R A := fun st => (Next a, st).

Definition return_ {R : Type} (r : R) : stmt R unit := fun st => (Return r, st).

Definition bind {R A B : Type} (m : stmt R A) (k : A -> stmt R B) : stmt R B :=
  fun st =>
    match m st with
    | (Next a, st') => k a st'
    | (Return r, st') => (Return r, st')
    end.

Notation "x <- m ;; k" := (bind m (fun x => k))
  (at level 61, m at next level, right associativity).
Notation "m ;; k" := (bind m (fun _ => k))
  (at level 61, right associativity).

(** A function body; [dflt] is what a body that falls off its end yields
    ([tt] for a [void] function). *)
Definition function {R : Type} (dflt : R) (body : stmt R unit) : fn R :=
  fun st =>
    match body st with
    | (Return r, st') => (r, st')
    | (Next _, st') => (dflt, st')
    end.

Definition call {R A : Type} (f : fn A) : stmt R A :=
  fun st => let (a, st') := f st in (Next a, st').

Definition exec {R : Type} (f : fn R) (st : state) : state := snd (f st).
Definition result {R : Type} (f : fn R) (st : state) : R := fst (f st).

(** The register file after a word is stored at one address. *)
Definition update (m : Z -> Z) (a v : Z) : Z -> Z :=
  fun a' => if a' =? a then v else m a'.

(** [*(volatile uint32_t * )a] read. *)
Definition volatile_load {R : Type} (a : Z) : stmt R Z :=
  fun st =>
    (Next (mem st a),
     mkState (mem st) (accesses st ++ [Rd a]) (console st)).

(** [*(volatile uint32_t * )a = v]. *)
Definition volatile_store {R : Type} (a v : Z) : stmt R unit :=
  fun st =>
    (Next tt,
     mkState (update (mem st) a (u32 v))
             (accesses st ++ [Wr a (u32 v)]) (console st)).

Definition trace {R : Type} (fmt : string) (args : list arg) : stmt R unit :=
  fun st =>
    (Next tt, mkState (mem st) (accesses st) (console st ++ [TraceMsg fmt args])).

Definition debug {R : Type} (fmt : string) (args : list arg) : stmt R unit :=
  fun st =>
    (Next tt, mkState (mem st) (accesses st) (console st ++ [DebugMsg fmt args])).

(** [for (i = lo; i < hi; i++) body]: the body runs for [lo], [lo + 1], ...
    [hi - 1] in turn; it does not assign [i]. *)
Fixpoint for_count {R : Type} (n : nat) (i : Z) (body : Z -> stmt R unit)
  : stmt R unit :=
  match n with
  | O => ret tt
  | S n' => body i ;; for_count n' (i + 1) body
  end.

Definition for_range {R : Type} (lo hi : Z) (body : Z -> stmt R unit)
  : stmt R unit :=
  for_count (Z.to_nat (hi - lo)) lo body.

(** ** Compile-time configuration *)

Definition PLIC_SRCCNT : Z := 0x400.
Definition PLIC_CTXCNT : Z := 1.

(** [PLIC_IOBASE] when the build does not define it. *)
Definition PLIC_IOBASE_default : Z := 0x0C000000.

(** ** The spec's vocabulary *)

(** The spec's clamp of a level to a range. *)
Definition clamp (level lo hi : Z) : Z := Z.max lo (Z.min level hi).

(** The spec's register table: each register's offset from the base. *)
Inductive register : Type :=
| PriorityReg (source : Z)
| PendingWord (source : Z)
| EnableWord (source : Z)
| ThresholdReg
| ClaimCompleteReg.

Definition reg_offset (r : register) : Z :=
  match r with
  | PriorityReg s => 0x000 + 4 * s
  | PendingWord s => 0x1000 + 4 * (s / 32)
  | EnableWord s => 0x2000 + 4 * (s / 32)
  | ThresholdReg => 0x200000
  | ClaimCompleteReg => 0x200004
  end.

(** Every register holds a 32-bit word. *)
Definition mem_ok (m : Z -> Z) : Prop := forall a, 0 <= m a < 2 ^ 32.

(** ** Observing a call *)

(** The accesses a call added to the log. *)
Definition new_accesses (before after : state) : list access :=
  skipn (length (accesses before)) (accesses after).

(** [st'] has the log of [st] followed by accesses that satisfy [P]. *)
Definition extends (P : access -> Prop) (st st' : state) : Prop :=
  exists evs, accesses st' = accesses st ++ evs /\ Forall P evs.

(** The accesses a call made all satisfy [P]. *)
Definition reaches_only (P : access -> Prop) (st st' : state) : Prop :=
  Forall P (new_accesses st st').

(** The addresses a call accessed, in order. *)
Definition addresses (st st' : state) : list Z :=
  map access_addr (new_accesses st st').

(** Every register zero, nothing logged. *)
Definition reset_state : state := mkState (fun _ => 0) [] [].

(** [reset_state] with one register set. *)
Definition with_register (a v : Z) : state :=
  mkState (update (fun _ => 0) a v) [] [].

(** Unfolds the statement combinators of a function body. *)
Ltac run_body :=
  cbv beta iota delta [function bind ret return_ call volatile_load
                       volatile_store trace debug];
  cbn [mem accesses console].

Section Plic.

(** The base address is a build-time constant.  [plic.h], which defines
    [PLIC_PRIO_MIN] and [PLIC_PRIO_MAX], is not among the sources: the two
    constants are taken as they come. *)
Variable PLIC_IOBASE : Z.
Variable PLIC_PRIO_MIN : Z.
Variable PLIC_PRIO_MAX : Z.

Definition pending : Z := u64 (PLIC_IOBASE + 0x1000).
Definition enable : Z := u64 (PLIC_IOBASE + 0x2000).
Definition threshold : Z := u64 (PLIC_IOBASE + 0x200000).
Definition claim : Z := u64 (PLIC_IOBASE + 0x200004).

(** *** Internal functions *)

Definition plic_set_source_priority (srcno level : Z) : fn unit :=
  function tt
    (if (srcno >? PLIC_SRCCNT) || (srcno =? 0) || (level <? PLIC_PRIO_MIN)
     then
       (return_ tt ;;
        (* after the return: never reached *)
        let level := if level >? PLIC_PRIO_MAX then PLIC_PRIO_MAX else level in
        ret tt)
     else
       (let prio_ptr := u64 (u64 PLIC_IOBASE + 4 * srcno) in
        volatile_store prio_ptr level)).

Definition plic_source_pending (srcno : Z) : fn Z :=
  function 0
    ((if srcno >? PLIC_SRCCNT then return_ 0 else ret tt) ;;
     let pending_ptr := u64 (pending + 4 * (srcno / 32)) in
     pend <- volatile_load pending_ptr ;;
     let pend := Z.land pend (u32 (s32 (Z.shiftl 1 (srcno mod 32)))) in
     return_ (s32 (if pend >? 0 then 1 else 0))).

Definition plic_enable_source_for_context (ctxno srcno : Z) : fn unit :=
  function tt
    ((if negb (ctxno =? 0) || (srcno >? PLIC_SRCCNT) || (srcno <=? 0)
      then return_ tt else ret tt) ;;
     let enable_ptr := u64 (enable + 4 * (srcno / 32)) in
     old <- volatile_load enable_ptr ;;
     volatile_store enable_ptr
       (Z.lor old (u32 (s32 (Z.shiftl 1 (srcno mod 32)))))).

Definition plic_disable_source_for_context (ctxno srcid : Z) : fn unit :=
  function tt
    ((if negb (ctxno =? 0) || (srcid >? PLIC_SRCCNT) || (srcid <=? 0)
      then return_ tt else ret tt) ;;
     let enable_ptr := u64 (enable + 4 * (srcid / 32)) in
     old <- volatile_load enable_ptr ;;
     volatile_store enable_ptr
       (Z.land old (u32 (Z.lnot (s32 (Z.shiftl 1 (srcid mod 32))))))).

Definition plic_set_context_threshold (ctxno level : Z) : fn unit :=
  function tt
    ((if negb (ctxno =? 0) then return_ tt else ret tt) ;;
     let threshold_ptr := threshold in
     volatile_store threshold_ptr level).

Definition plic_claim_context_interrupt (ctxno : Z) : fn Z :=
  function 0
    ((if negb (ctxno =? 0) then return_ 0 else ret tt) ;;
     let claim_ptr := claim in
     v <- volatile_load claim_ptr ;;
     return_ v).

Definition plic_complete_context_interrupt (ctxno srcno : Z) : fn unit :=
  function tt
    ((if negb (ctxno =? 0) || (srcno >? PLIC_SRCCNT) || (srcno <=? 0)
      then return_ tt else ret tt) ;;
     let claim_ptr := claim in
     volatile_store claim_ptr srcno).

(** *** Exported functions

    Their [int] arguments convert to [uint32_t] at the calls. *)

Definition plic_init : fn unit :=
  function tt
    (for_range 0 PLIC_SRCCNT (fun i =>
       call (plic_set_source_priority (u32 i) 0) ;;
       call (plic_enable_source_for_context 0 (u32 i)))).

Definition plic_enable_irq (irqno prio : Z) : fn unit :=
  function tt
    (trace "%s(irqno=%d,prio=%d)"
       [AStr "plic_enable_irq"; AInt irqno; AInt prio] ;;
     call (plic_set_source_priority (u32 irqno) (u32 prio))).

Definition plic_disable_irq (irqno : Z) : fn unit :=
  function tt
    (if 0 <? irqno
     then call (plic_set_source_priority (u32 irqno) 0)
     else debug "plic_disable_irq called with irqno = %d" [AInt irqno]).

Definition plic_claim_irq : fn Z :=
  function 0
    (trace "%s()" [AStr "plic_claim_irq"] ;;
     v <- call (plic_claim_context_interrupt 0) ;;
     return_ (s32 v)).

Definition plic_close_irq (irqno : Z) : fn unit :=
  function tt
    (trace "%s(irqno=%d)" [AStr "plic_close_irq"; AInt irqno] ;;
     call (plic_complete_context_interrupt 0 (u32 irqno))).

(** *** The registers as the spec's table places them *)

Definition reg_addr (r : register) : Z := PLIC_IOBASE + reg_offset r.

Definition priority (st : state) (s : Z) : Z := mem st (reg_addr (PriorityReg s)).

Definition source_enabled (st : state) (s : Z) : bool :=
  Z.testbit (mem st (reg_addr (EnableWord s))) (s mod 32).

Definition pending_bit (st : state) (s : Z) : bool :=
  Z.testbit (mem st (reg_addr (PendingWord s))) (s mod 32).

Definition context_threshold (st : state) : Z := mem st (reg_addr ThresholdReg).

(** An access lands on register [r] of the spec's table. *)
Definition at_register (r : register) (ev : access) : Prop :=
  access_addr ev = PLIC_IOBASE + reg_offset r.

(** The registers [plic_init] may reach: the priority register and the
    enable word of a source below [PLIC_SRCCNT]. *)
Definition init_register (ev : access) : Prop :=
  exists i, 0 <= i < PLIC_SRCCNT /\
            (at_register (PriorityReg i) ev \/ at_register (EnableWord i) ev).

(** The body of the loop of [plic_init]. *)
Definition init_body (i : Z) : stmt unit unit :=
  call (plic_set_source_priority (u32 i) 0) ;;
  call (plic_enable_source_for_context 0 (u32 i)).

(** The state once the loop has dealt with the sources below [i]. *)
Definition init_done (st0 : state) (i : Z) (st : state) : Prop :=
  (forall s, 0 <= s ->
     source_enabled st s = source_enabled st0 s || ((1 <=? s) && (s <? i))) /\
  (forall s, 0 <= s < PLIC_SRCCNT ->
     priority st s =
     if (1 <=? s) && (s <? i) && (PLIC_PRIO_MIN =? 0) then 0 else priority st0 s).

(** *** Facts about the machine integers *)

Lemma u32_s32 (z : Z) : u32 (s32 z) = u32 z.
Proof.
  unfold u32, s32.
  change (2 ^ 32) with 4294967296. change (2 ^ 31) with 2147483648.
  Z.div_mod_to_equations. lia.
Qed.

Lemma u32_lnot_s32 (z : Z) : u32 (Z.lnot (s32 z)) = u32 (Z.lnot z).
Proof.
  unfold u32, s32, Z.lnot.
  change (2 ^ 32) with 4294967296. change (2 ^ 31) with 2147483648.
  Z.div_mod_to_equations. lia.
Qed.

Lemma u32_small (z : Z) : 0 <= z < 2 ^ 32 -> u32 z = z.
Proof. intros H. unfold u32. apply Z.mod_small. exact H. Qed.

Lemma u32_range (z : Z) : 0 <= u32 z < 2 ^ 32.
Proof. unfold u32. apply Z.mod_pos_bound. reflexivity. Qed.

Lemma u64_small (z : Z) : 0 <= z < 2 ^ 64 -> u64 z = z.
Proof. intros H. unfold u64. apply Z.mod_small. exact H. Qed.

Lemma u32_testbit (z j : Z) : 0 <= j < 32 -> Z.testbit (u32 z) j = Z.testbit z j.
Proof. intros H. unfold u32. apply Z.mod_pow2_bits_low. lia. Qed.

(** [1 << k] as the mask [|=] and [&] see it. *)
Lemma set_mask (k : Z) : 0 <= k < 32 -> u32 (s32 (Z.shiftl 1 k)) = 2 ^ k.
Proof.
  intros H. rewrite u32_s32, Z.shiftl_1_l. apply u32_small.
  split; [apply Z.pow_nonneg; lia | apply Z.pow_lt_mono_r; lia].
Qed.

Lemma set_mask_testbit (k j : Z) :
  0 <= k < 32 -> Z.testbit (u32 (s32 (Z.shiftl 1 k))) j = (k =? j).
Proof.
  intros H. rewrite set_mask by exact H. apply Z.pow2_bits_eqb. lia.
Qed.

(** [~(1 << k)] as the mask [&=] sees it. *)
Lemma clear_mask_testbit (k j : Z) :
  0 <= k < 32 -> 0 <= j < 32 ->
  Z.testbit (u32 (Z.lnot (s32 (Z.shiftl 1 k)))) j = negb (k =? j).
Proof.
  intros Hk Hj. rewrite u32_lnot_s32, u32_testbit by exact Hj.
  rewrite Z.lnot_spec by lia. rewrite Z.shiftl_1_l.
  rewrite Z.pow2_bits_eqb by lia. reflexivity.
Qed.

Lemma source_index (s s' : Z) :
  s / 32 = s' / 32 -> s mod 32 = s' mod 32 -> s = s'.
Proof.
  intros Hd Hm.
  rewrite (Z.div_mod s 32), (Z.div_mod s' 32) by lia.
  rewrite Hd, Hm. reflexivity.
Qed.

(** *** The build's constants

    The constant expressions [PLIC_IOBASE + offset] are evaluated in the
    type of the macro, [int] for the default: the register window has to
    fit.  The priority bounds are unsigned 32-bit values. *)
Hypothesis iobase_window : 0 <= PLIC_IOBASE /\ PLIC_IOBASE + 0x200004 <= 0x7FFFFFFF.
Hypothesis prio_range : 0 <= PLIC_PRIO_MIN <= PLIC_PRIO_MAX /\ PLIC_PRIO_MAX < 2 ^ 32.

Lemma pending_addr : pending = PLIC_IOBASE + 0x1000.
Proof. unfold pending. apply u64_small. change (2 ^ 64) with 18446744073709551616. lia. Qed.

Lemma enable_addr : enable = PLIC_IOBASE + 0x2000.
Proof. unfold enable. apply u64_small. change (2 ^ 64) with 18446744073709551616. lia. Qed.

Lemma threshold_addr : threshold = reg_addr ThresholdReg.
Proof. unfold threshold, reg_addr, reg_offset. apply u64_small. change (2 ^ 64) with 18446744073709551616. lia. Qed.

Lemma claim_addr : claim = reg_addr ClaimCompleteReg.
Proof. unfold claim, reg_addr, reg_offset. apply u64_small. change (2 ^ 64) with 18446744073709551616. lia. Qed.

Lemma prio_ptr_addr (s : Z) :
  0 <= s <= PLIC_SRCCNT -> u64 (u64 PLIC_IOBASE + 4 * s) = reg_addr (PriorityReg s).
Proof.
  unfold PLIC_SRCCNT. intros H.
  rewrite (u64_small PLIC_IOBASE) by (change (2 ^ 64) with 18446744073709551616; lia).
  unfold reg_addr, reg_offset. apply u64_small.
  change (2 ^ 64) with 18446744073709551616. lia.
Qed.

Lemma pending_ptr_addr (s : Z) :
  0 <= s <= PLIC_SRCCNT -> u64 (pending + 4 * (s / 32)) = reg_addr (PendingWord s).
Proof.
  unfold PLIC_SRCCNT. intros H. rewrite pending_addr.
  unfold reg_addr, reg_offset. rewrite Z.add_assoc. apply u64_small.
  change (2 ^ 64) with 18446744073709551616.
  assert (0 <= s / 32 <= 32) by (split; [apply Z.div_pos; lia | apply Z.div_le_upper_bound; lia]).
  lia.
Qed.

Lemma enable_ptr_addr (s : Z) :
  0 <= s <= PLIC_SRCCNT -> u64 (enable + 4 * (s / 32)) = reg_addr (EnableWord s).
Proof.
  unfold PLIC_SRCCNT. intros H. rewrite enable_addr.
  unfold reg_addr, reg_offset. rewrite Z.add_assoc. apply u64_small.
  change (2 ^ 64) with 18446744073709551616.
  assert (0 <= s / 32 <= 32) by (split; [apply Z.div_pos; lia | apply Z.div_le_upper_bound; lia]).
  lia.
Qed.

(** *** What each internal function does to the state *)

Lemma set_source_priority_rejected (s L : Z) (st : state) :
  (s >? PLIC_SRCCNT) || (s =? 0) || (L <? PLIC_PRIO_MIN) = true ->
  plic_set_source_priority s L st = (tt, st).
Proof.
  intros G. unfold plic_set_source_priority. rewrite G. reflexivity.
Qed.

Lemma set_source_priority_accepted (s L : Z) (st : state) :
  0 <= s ->
  (s >? PLIC_SRCCNT) || (s =? 0) || (L <? PLIC_PRIO_MIN) = false ->
  plic_set_source_priority s L st =
  (tt, mkState (update (mem st) (reg_addr (PriorityReg s)) (u32 L))
               (accesses st ++ [Wr (reg_addr (PriorityReg s)) (u32 L)])
               (console st)).
Proof.
  intros Hs G. unfold plic_set_source_priority. rewrite G. run_body.
  rewrite prio_ptr_addr by lia. reflexivity.
Qed.

Lemma source_pending_rejected (s : Z) (st : state) :
  s > PLIC_SRCCNT -> plic_source_pending s st = (0, st).
Proof.
  intros G. unfold plic_source_pending.
  replace (s >? PLIC_SRCCNT) with true by lia. reflexivity.
Qed.

Lemma source_pending_accepted (s : Z) (st : state) :
  0 <= s <= PLIC_SRCCNT ->
  plic_source_pending s st =
  (s32 (if Z.land (mem st (reg_addr (PendingWord s))) (2 ^ (s mod 32)) >? 0
        then 1 else 0),
   mkState (mem st) (accesses st ++ [Rd (reg_addr (PendingWord s))]) (console st)).
Proof.
  intros G. unfold plic_source_pending.
  replace (s >? PLIC_SRCCNT) with false by lia. run_body.
  rewrite pending_ptr_addr by lia.
  rewrite set_mask by (apply Z.mod_pos_bound; lia). reflexivity.
Qed.

Lemma enable_source_rejected (c s : Z) (st : state) :
  negb (c =? 0) || (s >? PLIC_SRCCNT) || (s <=? 0) = true ->
  plic_enable_source_for_context c s st = (tt, st).
Proof.
  intros G. unfold plic_enable_source_for_context. rewrite G. reflexivity.
Qed.

Lemma enable_source_accepted (s : Z) (st : state) :
  1 <= s <= PLIC_SRCCNT ->
  plic_enable_source_for_context 0 s st =
  (tt, let e := reg_addr (EnableWord s) in
       let w := u32 (Z.lor (mem st e) (2 ^ (s mod 32))) in
       mkState (update (mem st) e w) (accesses st ++ [Rd e; Wr e w]) (console st)).
Proof.
  intros G. unfold plic_enable_source_for_context.
  replace (negb (0 =? 0) || (s >? PLIC_SRCCNT) || (s <=? 0)) with false by lia.
  run_body. rewrite enable_ptr_addr by lia.
  rewrite set_mask by (apply Z.mod_pos_bound; lia).
  rewrite <- app_assoc. reflexivity.
Qed.

Lemma disable_source_rejected (c s : Z) (st : state) :
  negb (c =? 0) || (s >? PLIC_SRCCNT) || (s <=? 0) = true ->
  plic_disable_source_for_context c s st = (tt, st).
Proof.
  intros G. unfold plic_disable_source_for_context. rewrite G. reflexivity.
Qed.

Lemma disable_source_accepted (s : Z) (st : state) :
  1 <= s <= PLIC_SRCCNT ->
  plic_disable_source_for_context 0 s st =
  (tt, let e := reg_addr (EnableWord s) in
       let w := u32 (Z.land (mem st e)
                       (u32 (Z.lnot (s32 (Z.shiftl 1 (s mod 32)))))) in
       mkState (update (mem st) e w) (accesses st ++ [Rd e; Wr e w]) (console st)).
Proof.
  intros G. unfold plic_disable_source_for_context.
  replace (negb (0 =? 0) || (s >? PLIC_SRCCNT) || (s <=? 0)) with false by lia.
  run_body. rewrite enable_ptr_addr by lia.
  rewrite <- app_assoc. reflexivity.
Qed.

Lemma set_context_threshold_rejected (c L : Z) (st : state) :
  c <> 0 -> plic_set_context_threshold c L st = (tt, st).
Proof.
  intros G. unfold plic_set_context_threshold.
  replace (c =? 0) with false by lia. reflexivity.
Qed.

Lemma set_context_threshold_accepted (L : Z) (st : state) :
  plic_set_context_threshold 0 L st =
  (tt, mkState (update (mem st) (reg_addr ThresholdReg) (u32 L))
               (accesses st ++ [Wr (reg_addr ThresholdReg) (u32 L)])
               (console st)).
Proof.
  unfold plic_set_context_threshold. run_body. cbn [Z.eqb negb].
  rewrite threshold_addr. reflexivity.
Qed.

Lemma claim_context_interrupt_rejected (c : Z) (st : state) :
  c <> 0 -> plic_claim_context_interrupt c st = (0, st).
Proof.
  intros G. unfold plic_claim_context_interrupt.
  replace (c =? 0) with false by lia. reflexivity.
Qed.

Lemma claim_context_interrupt_accepted (st : state) :
  plic_claim_context_interrupt 0 st =
  (mem st (reg_addr ClaimCompleteReg),
   mkState (mem st) (accesses st ++ [Rd (reg_addr ClaimCompleteReg)]) (console st)).
Proof.
  unfold plic_claim_context_interrupt. run_body. cbn [Z.eqb negb].
  rewrite claim_addr. reflexivity.
Qed.

Lemma complete_context_interrupt_rejected (c s : Z) (st : state) :
  negb (c =? 0) || (s >? PLIC_SRCCNT) || (s <=? 0) = true ->
  plic_complete_context_interrupt c s st = (tt, st).
Proof.
  intros G. unfold plic_complete_context_interrupt. rewrite G. reflexivity.
Qed.

Lemma complete_context_interrupt_accepted (s : Z) (st : state) :
  1 <= s <= PLIC_SRCCNT ->
  plic_complete_context_interrupt 0 s st =
  (tt, mkState (update (mem st) (reg_addr ClaimCompleteReg) (u32 s))
               (accesses st ++ [Wr (reg_addr ClaimCompleteReg) (u32 s)])
               (console st)).
Proof.
  intros G. unfold plic_complete_context_interrupt.
  replace (negb (0 =? 0) || (s >? PLIC_SRCCNT) || (s <=? 0)) with false by lia.
  run_body. rewrite claim_addr. reflexivity.
Qed.

(** *** Enable bits *)

Lemma enable_sets_bit (s s' : Z) (st : state) :
  1 <= s <= PLIC_SRCCNT ->
  source_enabled (exec (plic_enable_source_for_context 0 s) st) s' =
  source_enabled st s' || (s' =? s).
Proof.
  intros G. unfold exec. rewrite enable_source_accepted by exact G.
  unfold source_enabled, update. cbn [snd mem].
  assert (Hk : 0 <= s' mod 32 < 32) by (apply Z.mod_pos_bound; lia).
  destruct (Z.eqb_spec (reg_addr (EnableWord s')) (reg_addr (EnableWord s))) as [E | E].
  - rewrite u32_testbit, Z.lor_spec, Z.pow2_bits_eqb by
      (try apply Z.mod_pos_bound; lia).
    rewrite E. f_equal.
    unfold reg_addr, reg_offset in E.
    destruct (Z.eqb_spec (s mod 32) (s' mod 32)) as [M | M];
      destruct (Z.eqb_spec s' s) as [S | S]; try reflexivity.
    + exfalso. apply S. apply source_index; lia.
    + exfalso. apply M. rewrite S. reflexivity.
  - destruct (Z.eqb_spec s' s) as [S | S].
    + exfalso. apply E. rewrite S. reflexivity.
    + rewrite orb_false_r. reflexivity.
Qed.

Lemma disable_clears_bit (s s' : Z) (st : state) :
  1 <= s <= PLIC_SRCCNT ->
  source_enabled (exec (plic_disable_source_for_context 0 s) st) s' =
  source_enabled st s' && negb (s' =? s).
Proof.
  intros G. unfold exec. rewrite disable_source_accepted by exact G.
  unfold source_enabled, update. cbn [snd mem].
  assert (Hk : 0 <= s' mod 32 < 32) by (apply Z.mod_pos_bound; lia).
  assert (Hs : 0 <= s mod 32 < 32) by (apply Z.mod_pos_bound; lia).
  destruct (Z.eqb_spec (reg_addr (EnableWord s')) (reg_addr (EnableWord s))) as [E | E].
  - rewrite u32_testbit, Z.land_spec, clear_mask_testbit by assumption.
    rewrite E. f_equal.
    unfold reg_addr, reg_offset in E.
    destruct (Z.eqb_spec (s mod 32) (s' mod 32)) as [M | M];
      destruct (Z.eqb_spec s' s) as [S | S]; try reflexivity.
    + exfalso. apply S. apply source_index; lia.
    + exfalso. apply M. rewrite S. reflexivity.
  - destruct (Z.eqb_spec s' s) as [S | S].
    + exfalso. apply E. rewrite S. reflexivity.
    + rewrite andb_true_r. reflexivity.
Qed.

(** C5: for a valid source [s] (1 to [PLIC_SRCCNT - 1]), enabling it for
    context 0 sets bit [s mod 32] of enable word [s / 32], keeps every
    other bit of that word, and keeps every other word; disabling it clears
    that bit and keeps the rest in the same way. *)
Theorem enable_disable_touch_one_bit (s : Z) (st : state) :
  1 <= s <= PLIC_SRCCNT - 1 ->
  let e := reg_addr (EnableWord s) in
  let on := exec (plic_enable_source_for_context 0 s) st in
  let off := exec (plic_disable_source_for_context 0 s) st in
  (Z.testbit (mem on e) (s mod 32) = true /\
   (forall j, 0 <= j < 32 -> j <> s mod 32 ->
      Z.testbit (mem on e) j = Z.testbit (mem st e) j) /\
   (forall a, a <> e -> mem on a = mem st a)) /\
  (Z.testbit (mem off e) (s mod 32) = false /\
   (forall j, 0 <= j < 32 -> j <> s mod 32 ->
      Z.testbit (mem off e) j = Z.testbit (mem st e) j) /\
   (forall a, a <> e -> mem off a = mem st a)).
Proof.
  intros G e on off. subst on off. unfold exec.
  rewrite enable_source_accepted, disable_source_accepted by lia.
  fold e. cbn [snd mem]. unfold update.
  assert (Hk : 0 <= s mod 32 < 32) by (apply Z.mod_pos_bound; lia).
  rewrite Z.eqb_refl.
  split; (split; [| split]).
  - rewrite u32_testbit, Z.lor_spec, Z.pow2_bits_eqb, Z.eqb_refl by lia.
    apply orb_true_r.
  - intros j Hj Hne.
    rewrite u32_testbit, Z.lor_spec, Z.pow2_bits_eqb by lia.
    replace (s mod 32 =? j) with false by lia. apply orb_false_r.
  - intros a Ha. replace (a =? e) with false by lia. reflexivity.
  - rewrite u32_testbit, Z.land_spec, clear_mask_testbit, Z.eqb_refl by lia.
    apply andb_false_r.
  - intros j Hj Hne.
    rewrite u32_testbit, Z.land_spec, clear_mask_testbit by lia.
    replace (s mod 32 =? j) with false by lia. apply andb_true_r.
  - intros a Ha. replace (a =? e) with false by lia. reflexivity.
Qed.

(** C4 (amended): enabling a source for context 0 and then disabling it
    leaves every other source's enable bit as it was, after the first call
    and after the second.  When the source's own bit was clear before, the
    whole bitmap is as before; when the source is valid, its bit is clear
    afterwards whatever it was before; when the source is rejected (zero,
    negative or above [PLIC_SRCCNT]), both calls leave the state as it
    was, so the bitmap is as before whatever the bit. *)
Theorem enable_then_disable (s : Z) (st : state) :
  mem_ok (mem st) ->
  let on := exec (plic_enable_source_for_context 0 s) st in
  let off := exec (plic_disable_source_for_context 0 s) on in
  (forall s', s' <> s ->
     source_enabled on s' = source_enabled st s' /\
     source_enabled off s' = source_enabled st s') /\
  (source_enabled st s = false ->
     (forall s', source_enabled off s' = source_enabled st s') /\
     (forall a, mem off a = mem st a)) /\
  (1 <= s <= PLIC_SRCCNT - 1 -> source_enabled off s = false) /\
  (s <= 0 \/ PLIC_SRCCNT < s -> on = st /\ off = st).
Proof.
  intros Hok on off.
  destruct (negb (0 =? 0) || (s >? PLIC_SRCCNT) || (s <=? 0)) eqn:G.
  - assert (Eon : on = st)
      by (subst on; unfold exec; rewrite enable_source_rejected by exact G; reflexivity).
    assert (Eoff : off = st)
      by (subst off; rewrite Eon; unfold exec;
          rewrite disable_source_rejected by exact G; reflexivity).
    rewrite Eoff, Eon. unfold PLIC_SRCCNT in *.
    split; [| split; [| split]].
    + intros s' _. split; reflexivity.
    + intros _. split; intros; reflexivity.
    + lia.
    + intros _. split; reflexivity.
  - assert (V : 1 <= s <= PLIC_SRCCNT) by lia.
    assert (Rej : s <= 0 \/ PLIC_SRCCNT < s -> on = st /\ off = st)
      by (intros Hrej; exfalso; lia).
    assert (Bit : forall s', source_enabled off s' =
                             (source_enabled st s' || (s' =? s)) && negb (s' =? s)).
    { intros s'. subst off on.
      rewrite disable_clears_bit, enable_sets_bit by exact V. reflexivity. }
    split; [| split; [| split; [| exact Rej]]].
    + intros s' Hne. subst on. rewrite Bit, enable_sets_bit by exact V.
      replace (s' =? s) with false by lia.
      rewrite orb_false_r, andb_true_r. split; reflexivity.
    + intros Hclear.
      assert (Bits : forall s', source_enabled off s' = source_enabled st s').
      { intros s'. rewrite Bit. destruct (Z.eqb_spec s' s) as [E | E].
        - rewrite E, Hclear. reflexivity.
        - rewrite orb_false_r, andb_true_r. reflexivity. }
      split; [exact Bits |].
      intros a. subst off on. unfold exec.
      rewrite enable_source_accepted by exact V. cbn [snd].
      rewrite disable_source_accepted by exact V. cbn [snd mem].
      unfold update.
      destruct (Z.eqb_spec a (reg_addr (EnableWord s))) as [E | E];
        [| reflexivity].
      rewrite Z.eqb_refl, E.
      assert (Hk : 0 <= s mod 32 < 32) by (apply Z.mod_pos_bound; lia).
      apply Z.bits_inj'. intros j Hj.
      destruct (Z.ltb_spec j 32) as [Lt | Ge].
      * rewrite u32_testbit, Z.land_spec, u32_testbit, Z.lor_spec,
          clear_mask_testbit, Z.pow2_bits_eqb by lia.
        destruct (Z.eqb_spec (s mod 32) j) as [J | J].
        -- rewrite <- J. unfold source_enabled in Hclear. rewrite Hclear.
           reflexivity.
        -- rewrite orb_false_r, andb_true_r. reflexivity.
      * unfold u32 at 1. rewrite Z.mod_pow2_bits_high by lia.
        specialize (Hok (reg_addr (EnableWord s))).
        rewrite <- (Z.mod_small _ _ Hok).
        rewrite Z.mod_pow2_bits_high by lia. reflexivity.
    + intros _. rewrite Bit. rewrite Z.eqb_refl. apply andb_false_r.
Qed.

(** *** Priorities and threshold *)

(** A level that passes the guard is stored as it is, above the maximum
    too: the clamp stands after the [return]. *)
Lemma set_source_priority_stores (s L : Z) (st : state) :
  1 <= s <= PLIC_SRCCNT -> PLIC_PRIO_MIN <= L < 2 ^ 32 ->
  priority (exec (plic_set_source_priority s L) st) s = L.
Proof.
  intros Hs HL. unfold exec.
  rewrite set_source_priority_accepted by lia.
  unfold priority, update. cbn [snd mem]. rewrite Z.eqb_refl.
  apply u32_small. lia.
Qed.

Lemma set_source_priority_frame (s L a : Z) (st : state) :
  0 <= s -> a <> reg_addr (PriorityReg s) ->
  mem (exec (plic_set_source_priority s L) st) a = mem st a.
Proof.
  intros Hs Ha. unfold exec.
  destruct ((s >? PLIC_SRCCNT) || (s =? 0) || (L <? PLIC_PRIO_MIN)) eqn:G.
  - rewrite set_source_priority_rejected by exact G. reflexivity.
  - rewrite set_source_priority_accepted by assumption.
    cbn [snd mem]. unfold update. replace (a =? _) with false by lia.
    reflexivity.
Qed.

(** C1 (amended): for a valid source (1 to [PLIC_SRCCNT - 1]) a level
    within [PLIC_PRIO_MIN] and [PLIC_PRIO_MAX] is left in the source's
    priority register, which then holds the clamp of the level; a level
    below [PLIC_PRIO_MIN] is rejected and the call changes nothing. *)
Theorem set_source_priority_level (s L : Z) (st : state) :
  1 <= s <= PLIC_SRCCNT - 1 -> 0 <= L < 2 ^ 32 ->
  (PLIC_PRIO_MIN <= L <= PLIC_PRIO_MAX ->
     priority (exec (plic_set_source_priority s L) st) s =
     clamp L PLIC_PRIO_MIN PLIC_PRIO_MAX) /\
  (L < PLIC_PRIO_MIN -> exec (plic_set_source_priority s L) st = st).
Proof.
  intros Hs HL. split.
  - intros Hin. rewrite set_source_priority_stores by lia.
    unfold clamp. lia.
  - intros Hlow. unfold exec.
    rewrite set_source_priority_rejected by lia. reflexivity.
Qed.

(** C8 (amended): [plic_set_context_threshold] on context 0 leaves the
    level itself in the threshold register, with no clamping; the register
    holds the clamp of the level exactly when the level lies within
    [PLIC_PRIO_MIN] and [PLIC_PRIO_MAX]. *)
Theorem set_context_threshold_stores (L : Z) (st : state) :
  0 <= L < 2 ^ 32 ->
  context_threshold (exec (plic_set_context_threshold 0 L) st) = L /\
  (context_threshold (exec (plic_set_context_threshold 0 L) st) =
   clamp L PLIC_PRIO_MIN PLIC_PRIO_MAX <->
   PLIC_PRIO_MIN <= L <= PLIC_PRIO_MAX).
Proof.
  intros HL.
  assert (E : context_threshold (exec (plic_set_context_threshold 0 L) st) = L).
  { unfold exec. rewrite set_context_threshold_accepted.
    unfold context_threshold, update. cbn [snd mem]. rewrite Z.eqb_refl.
    apply u32_small. exact HL. }
  split; [exact E |]. rewrite E. unfold clamp. lia.
Qed.

(** *** Ids the guards turn away *)

(** X18: source id 0 and every id above [PLIC_SRCCNT] are turned away by
    the four functions that check the source, whatever the context and
    the level: the state is left as it was. *)
Lemma invalid_source_ignored (c s L : Z) (st : state) :
  s = 0 \/ PLIC_SRCCNT < s ->
  exec (plic_set_source_priority s L) st = st /\
  exec (plic_enable_source_for_context c s) st = st /\
  exec (plic_disable_source_for_context c s) st = st /\
  exec (plic_complete_context_interrupt c s) st = st.
Proof.
  intros H. unfold exec.
  rewrite set_source_priority_rejected, enable_source_rejected,
    disable_source_rejected, complete_context_interrupt_rejected by lia.
  repeat split.
Qed.

Lemma u32_of_int (z : Z) :
  - 2 ^ 31 <= z < 2 ^ 31 -> u32 z = if z <? 0 then z + 2 ^ 32 else z.
Proof.
  intros H. unfold u32. change (2 ^ 31) with 2147483648 in H.
  change (2 ^ 32) with 4294967296.
  destruct (Z.ltb_spec z 0); Z.div_mod_to_equations; lia.
Qed.

(** X19: An [irqno] that is zero, negative or above [PLIC_SRCCNT]: the call
    traces like any other and touches no register. *)
Lemma enable_irq_invalid (irqno prio : Z) (st : state) :
  - 2 ^ 31 <= irqno < 2 ^ 31 ->
  irqno <= 0 \/ PLIC_SRCCNT < irqno ->
  exec (plic_enable_irq irqno prio) st =
  mkState (mem st) (accesses st)
          (console st ++ [TraceMsg "%s(irqno=%d,prio=%d)"
       [AStr "plic_enable_irq"; AInt irqno; AInt prio]]).
Proof.
  intros Hint H. unfold exec, plic_enable_irq. run_body.
  rewrite set_source_priority_rejected; [reflexivity |].
  rewrite u32_of_int by exact Hint. unfold PLIC_SRCCNT in *.
  change (2 ^ 31) with 2147483648 in Hint. change (2 ^ 32) with 4294967296.
  destruct (Z.ltb_spec irqno 0); lia.
Qed.

(** C7 (amended): [plic_disable_irq] with [irq <= 0] logs the diagnostic
    and touches no register; with [irq] above [PLIC_SRCCNT] it does
    nothing at all; with a valid [irq] (1 to [PLIC_SRCCNT - 1]) it passes
    level 0 to [plic_set_source_priority], which leaves it in the priority
    register when 0 is the minimum priority. *)
Theorem disable_irq_behaviour (irq : Z) (st : state) :
  - 2 ^ 31 <= irq < 2 ^ 31 ->
  (irq <= 0 ->
     exec (plic_disable_irq irq) st =
     mkState (mem st) (accesses st)
             (console st ++
              [DebugMsg "plic_disable_irq called with irqno = %d" [AInt irq]])) /\
  (PLIC_SRCCNT < irq -> exec (plic_disable_irq irq) st = st) /\
  (1 <= irq <= PLIC_SRCCNT - 1 -> PLIC_PRIO_MIN = 0 ->
     priority (exec (plic_disable_irq irq) st) irq = PLIC_PRIO_MIN).
Proof.
  intros Hint.
  assert (U : 0 < irq -> u32 irq = irq).
  { intros Hpos. rewrite u32_of_int by exact Hint.
    replace (irq <? 0) with false by lia. reflexivity. }
  split; [| split].
  - intros Hle. unfold exec, plic_disable_irq.
    replace (0 <? irq) with false by lia. reflexivity.
  - intros Hbig. unfold exec, plic_disable_irq.
    replace (0 <? irq) with true by (unfold PLIC_SRCCNT in Hbig; lia).
    run_body. rewrite U by (unfold PLIC_SRCCNT in Hbig; lia).
    rewrite set_source_priority_rejected by lia. reflexivity.
  - intros Hv Hmin. unfold plic_disable_irq.
    replace (0 <? irq) with true by lia.
    rewrite U by lia.
    assert (E : exec (function tt (call (plic_set_source_priority irq 0))) st =
                exec (plic_set_source_priority irq 0) st).
    { unfold exec. run_body.
      destruct (plic_set_source_priority irq 0 st). reflexivity. }
    rewrite E, set_source_priority_stores by lia. symmetry. exact Hmin.
Qed.

(** *** Pending bits *)

Lemma land_pow2 (w k : Z) :
  0 <= k -> Z.land w (2 ^ k) = if Z.testbit w k then 2 ^ k else 0.
Proof.
  intros Hk. apply Z.bits_inj'. intros j Hj.
  rewrite Z.land_spec, Z.pow2_bits_eqb by exact Hk.
  destruct (Z.eqb_spec k j) as [E | E].
  - rewrite E, andb_true_r. destruct (Z.testbit w j).
    + rewrite Z.pow2_bits_eqb, Z.eqb_refl by exact Hj. reflexivity.
    + symmetry. apply Z.bits_0.
  - rewrite andb_false_r. destruct (Z.testbit w k).
    + rewrite Z.pow2_bits_eqb by exact Hk.
      symmetry. apply Z.eqb_neq. exact E.
    + symmetry. apply Z.bits_0.
Qed.

(** Up to [PLIC_SRCCNT], zero included, the call reads the source's
    pending bit and stores nothing. *)
Lemma source_pending_reads_bit (s : Z) (st : state) :
  0 <= s <= PLIC_SRCCNT ->
  result (plic_source_pending s) st = (if pending_bit st s then 1 else 0) /\
  mem (exec (plic_source_pending s) st) = mem st /\
  new_accesses st (exec (plic_source_pending s) st) =
  [Rd (reg_addr (PendingWord s))].
Proof.
  intros G. unfold result, exec. rewrite source_pending_accepted by exact G.
  cbn [fst snd mem]. split; [| split].
  - assert (Hk : 0 <= s mod 32 < 32) by (apply Z.mod_pos_bound; lia).
    rewrite land_pow2 by lia. unfold pending_bit.
    destruct (Z.testbit _ _).
    + assert (0 < 2 ^ (s mod 32)) by (apply Z.pow_pos_nonneg; lia).
      replace (2 ^ (s mod 32) >? 0) with true by lia. reflexivity.
    + reflexivity.
  - reflexivity.
  - unfold new_accesses. cbn [accesses].
    rewrite skipn_app, skipn_all, Nat.sub_diag. reflexivity.
Qed.

Lemma source_pending_out_of_range (s : Z) (st : state) :
  PLIC_SRCCNT < s ->
  result (plic_source_pending s) st = 0 /\ exec (plic_source_pending s) st = st.
Proof.
  intros G. unfold result, exec. rewrite source_pending_rejected by lia.
  split; reflexivity.
Qed.

(** *** Initialisation *)

(** An invariant carried through a counted loop whose body falls through. *)
Lemma for_count_invariant {R : Type} (I : Z -> state -> Prop)
  (body : Z -> stmt R unit) (n : nat) :
  forall (lo : Z) (st : state),
    (forall i st1, lo <= i < lo + Z.of_nat n -> I i st1 ->
       exists st2, body i st1 = (Next tt, st2) /\ I (i + 1) st2) ->
    I lo st ->
    exists st', for_count n lo body st = (Next tt, st') /\ I (lo + Z.of_nat n) st'.
Proof.
  induction n as [| n IH]; intros lo st Hstep H0.
  - exists st. split; [reflexivity |].
    replace (lo + Z.of_nat 0) with lo by lia. exact H0.
  - destruct (Hstep lo st) as [st1 [E1 I1]]; [lia | exact H0 |].
    destruct (IH (lo + 1) st1) as [st' [E' I']].
    + intros i st2 Hi. apply Hstep. lia.
    + exact I1.
    + exists st'. split.
      * cbn [for_count]. unfold bind at 1. rewrite E1. exact E'.
      * replace (lo + Z.of_nat (S n)) with (lo + 1 + Z.of_nat n) by lia.
        exact I'.
Qed.

Lemma init_body_exec (i : Z) (st : state) :
  init_body i st =
  (Next tt,
   exec (plic_enable_source_for_context 0 (u32 i))
        (exec (plic_set_source_priority (u32 i) 0) st)).
Proof.
  unfold init_body, exec, bind, call.
  destruct (plic_set_source_priority (u32 i) 0 st) as [[] st1]. cbn [snd].
  destruct (plic_enable_source_for_context 0 (u32 i) st1) as [[] st2].
  reflexivity.
Qed.

Lemma enable_source_frame (c s a : Z) (st : state) :
  0 <= s -> a <> reg_addr (EnableWord s) ->
  mem (exec (plic_enable_source_for_context c s) st) a = mem st a.
Proof.
  intros Hs Ha. unfold exec.
  destruct (negb (c =? 0) || (s >? PLIC_SRCCNT) || (s <=? 0)) eqn:G.
  - rewrite enable_source_rejected by exact G. reflexivity.
  - replace c with 0 by lia.
    rewrite enable_source_accepted by lia.
    cbn [snd mem]. unfold update. replace (a =? _) with false by lia.
    reflexivity.
Qed.

Lemma init_body_step (st0 : state) (i : Z) (st : state) :
  0 <= i < PLIC_SRCCNT -> init_done st0 i st ->
  exists st', init_body i st = (Next tt, st') /\ init_done st0 (i + 1) st'.
Proof.
  intros Hi [En Pr]. rewrite init_body_exec. eexists. split; [reflexivity |].
  assert (U : u32 i = i) by (apply u32_small; unfold PLIC_SRCCNT in Hi; lia).
  rewrite U.
  assert (Hdiv : forall s, 0 <= s -> 0 <= s / 32) by (intros; apply Z.div_pos; lia).
  split.
  - intros s Hs. specialize (Hdiv s Hs).
    assert (Frame : source_enabled (exec (plic_set_source_priority i 0) st) s =
                    source_enabled st s).
    { unfold source_enabled. rewrite set_source_priority_frame; [reflexivity | lia |].
      unfold reg_addr, reg_offset, PLIC_SRCCNT in *. lia. }
    destruct (Z.eq_dec i 0) as [Z0 | NZ].
    + unfold exec at 1. rewrite enable_source_rejected by lia. cbn [snd].
      rewrite Frame, En by exact Hs. f_equal. lia.
    + rewrite enable_sets_bit by lia. rewrite Frame, En by exact Hs.
      rewrite <- orb_assoc. f_equal. lia.
  - intros s Hs. specialize (Hdiv i (proj1 Hi)).
    unfold priority at 1. rewrite enable_source_frame;
      [| lia | unfold reg_addr, reg_offset, PLIC_SRCCNT in *; lia].
    fold (priority (exec (plic_set_source_priority i 0) st) s).
    destruct ((i >? PLIC_SRCCNT) || (i =? 0) || (0 <? PLIC_PRIO_MIN)) eqn:G.
    + unfold exec. rewrite set_source_priority_rejected by exact G. cbn [snd].
      rewrite Pr by exact Hs.
      replace ((1 <=? s) && (s <? i + 1) && (PLIC_PRIO_MIN =? 0))
        with ((1 <=? s) && (s <? i) && (PLIC_PRIO_MIN =? 0)) by lia.
      reflexivity.
    + destruct (Z.eq_dec s i) as [E | NE].
      * rewrite E, set_source_priority_stores by lia.
        replace ((1 <=? i) && (i <? i + 1) && (PLIC_PRIO_MIN =? 0)) with true by lia.
        reflexivity.
      * unfold priority at 1. rewrite set_source_priority_frame;
          [| lia | unfold reg_addr, reg_offset; lia].
        fold (priority st s). rewrite Pr by exact Hs.
        replace ((1 <=? s) && (s <? i + 1) && (PLIC_PRIO_MIN =? 0))
          with ((1 <=? s) && (s <? i) && (PLIC_PRIO_MIN =? 0)) by lia.
        reflexivity.
Qed.

Lemma plic_init_done (st : state) :
  init_done st PLIC_SRCCNT (exec plic_init st).
Proof.
  destruct (for_count_invariant (init_done st) init_body
              (Z.to_nat (PLIC_SRCCNT - 0)) 0 st) as [st' [E I]].
  - intros i st1 Hi. apply init_body_step. unfold PLIC_SRCCNT in *. lia.
  - split.
    + intros s Hs. replace ((1 <=? s) && (s <? 0)) with false by lia.
      rewrite orb_false_r. reflexivity.
    + intros s Hs. replace ((1 <=? s) && (s <? 0) && (PLIC_PRIO_MIN =? 0))
        with false by lia. reflexivity.
  - unfold exec, plic_init, function, for_range.
    change (fun i : Z => call (plic_set_source_priority (u32 i) 0) ;;
                          call (plic_enable_source_for_context 0 (u32 i)))
      with init_body.
    rewrite E. cbn [snd]. exact I.
Qed.

(** C3 (amended): after [plic_init], from any state, every source from 1
    to [PLIC_SRCCNT - 1] has its enable bit for context 0 set, and its
    priority register holds [PLIC_PRIO_MIN] when that minimum is the 0 the
    loop writes; source 0 is turned away by the guards and keeps the
    priority register and the enable bit it had. *)
Theorem plic_init_establishes (st : state) :
  (forall s, 1 <= s <= PLIC_SRCCNT - 1 ->
     source_enabled (exec plic_init st) s = true /\
     (PLIC_PRIO_MIN = 0 -> priority (exec plic_init st) s = PLIC_PRIO_MIN)) /\
  source_enabled (exec plic_init st) 0 = source_enabled st 0 /\
  priority (exec plic_init st) 0 = priority st 0.
Proof.
  destruct (plic_init_done st) as [En Pr]. split; [| split].
  - intros s Hs. split.
    + rewrite En by lia.
      replace ((1 <=? s) && (s <? PLIC_SRCCNT)) with true by lia.
      apply orb_true_r.
    + intros Hmin. rewrite Pr by lia.
      replace ((1 <=? s) && (s <? PLIC_SRCCNT) && (PLIC_PRIO_MIN =? 0))
        with true by lia.
      symmetry. exact Hmin.
  - rewrite En by lia. apply orb_false_r.
  - rewrite Pr by (unfold PLIC_SRCCNT; lia). reflexivity.
Qed.

(** *** Where the accesses go *)

Lemma extends_refl (P : access -> Prop) (st : state) : extends P st st.
Proof. exists []. split; [symmetry; apply app_nil_r | constructor]. Qed.

Lemma extends_trans (P : access -> Prop) (st1 st2 st3 : state) :
  extends P st1 st2 -> extends P st2 st3 -> extends P st1 st3.
Proof.
  intros [e1 [E1 F1]] [e2 [E2 F2]]. exists (e1 ++ e2). split.
  - rewrite E2, E1. symmetry. apply app_assoc.
  - apply Forall_app. split; assumption.
Qed.

Lemma extends_weaken (P Q : access -> Prop) (st st' : state) :
  (forall ev, P ev -> Q ev) -> extends P st st' -> extends Q st st'.
Proof.
  intros PQ [evs [E F]]. exists evs. split; [exact E |].
  apply Forall_impl with (P := P); assumption.
Qed.

Lemma extends_new_accesses (P : access -> Prop) (st st' : state) :
  extends P st st' -> Forall P (new_accesses st st').
Proof.
  intros [evs [E F]]. unfold new_accesses.
  rewrite E, skipn_app, skipn_all, Nat.sub_diag. exact F.
Qed.

Lemma set_source_priority_extends (s L : Z) (st : state) :
  0 <= s ->
  extends (at_register (PriorityReg s)) st (exec (plic_set_source_priority s L) st).
Proof.
  intros Hs. unfold exec.
  destruct ((s >? PLIC_SRCCNT) || (s =? 0) || (L <? PLIC_PRIO_MIN)) eqn:G.
  - rewrite set_source_priority_rejected by exact G. apply extends_refl.
  - rewrite set_source_priority_accepted by assumption.
    eexists. split; [reflexivity |]. repeat constructor.
Qed.

Lemma source_pending_extends (s : Z) (st : state) :
  0 <= s ->
  extends (at_register (PendingWord s)) st (exec (plic_source_pending s) st).
Proof.
  intros Hs. unfold exec. destruct (Z_le_gt_dec s PLIC_SRCCNT) as [G | G].
  - rewrite source_pending_accepted by lia.
    eexists. split; [reflexivity |]. repeat constructor.
  - rewrite source_pending_rejected by exact G. apply extends_refl.
Qed.

Lemma enable_source_extends (c s : Z) (st : state) :
  extends (at_register (EnableWord s)) st
          (exec (plic_enable_source_for_context c s) st).
Proof.
  unfold exec.
  destruct (negb (c =? 0) || (s >? PLIC_SRCCNT) || (s <=? 0)) eqn:G.
  - rewrite enable_source_rejected by exact G. apply extends_refl.
  - replace c with 0 by lia. rewrite enable_source_accepted by lia.
    eexists. split; [reflexivity |]. repeat constructor.
Qed.

Lemma disable_source_extends (c s : Z) (st : state) :
  extends (at_register (EnableWord s)) st
          (exec (plic_disable_source_for_context c s) st).
Proof.
  unfold exec.
  destruct (negb (c =? 0) || (s >? PLIC_SRCCNT) || (s <=? 0)) eqn:G.
  - rewrite disable_source_rejected by exact G. apply extends_refl.
  - replace c with 0 by lia. rewrite disable_source_accepted by lia.
    eexists. split; [reflexivity |]. repeat constructor.
Qed.

Lemma set_context_threshold_extends (c L : Z) (st : state) :
  extends (at_register ThresholdReg) st (exec (plic_set_context_threshold c L) st).
Proof.
  unfold exec. destruct (Z.eq_dec c 0) as [E | NE].
  - rewrite E, set_context_threshold_accepted.
    eexists. split; [reflexivity |]. repeat constructor.
  - rewrite set_context_threshold_rejected by exact NE. apply extends_refl.
Qed.

Lemma claim_context_interrupt_extends (c : Z) (st : state) :
  extends (at_register ClaimCompleteReg) st
          (exec (plic_claim_context_interrupt c) st).
Proof.
  unfold exec. destruct (Z.eq_dec c 0) as [E | NE].
  - rewrite E, claim_context_interrupt_accepted.
    eexists. split; [reflexivity |]. repeat constructor.
  - rewrite claim_context_interrupt_rejected by exact NE. apply extends_refl.
Qed.

Lemma complete_context_interrupt_extends (c s : Z) (st : state) :
  extends (at_register ClaimCompleteReg) st
          (exec (plic_complete_context_interrupt c s) st).
Proof.
  unfold exec.
  destruct (negb (c =? 0) || (s >? PLIC_SRCCNT) || (s <=? 0)) eqn:G.
  - rewrite complete_context_interrupt_rejected by exact G. apply extends_refl.
  - replace c with 0 by lia. rewrite complete_context_interrupt_accepted by lia.
    eexists. split; [reflexivity |]. repeat constructor.
Qed.

Lemma plic_init_extends (st : state) : extends init_register st (exec plic_init st).
Proof.
  destruct (for_count_invariant (fun _ st' => extends init_register st st')
              init_body (Z.to_nat (PLIC_SRCCNT - 0)) 0 st) as [st' [E I]].
  - intros i st1 Hi Hext. rewrite init_body_exec. eexists. split; [reflexivity |].
    assert (Hr : 0 <= i < PLIC_SRCCNT) by (unfold PLIC_SRCCNT in *; lia).
    assert (U : u32 i = i) by (apply u32_small; unfold PLIC_SRCCNT in Hr; lia).
    rewrite U.
    apply extends_trans with (st2 := exec (plic_set_source_priority i 0) st1).
    + apply extends_trans with (st2 := st1); [exact Hext |].
      apply extends_weaken with (P := at_register (PriorityReg i)).
      * intros ev Hev. exists i. split; [exact Hr | left; exact Hev].
      * apply set_source_priority_extends. lia.
    + apply extends_weaken with (P := at_register (EnableWord i)).
      * intros ev Hev. exists i. split; [exact Hr | right; exact Hev].
      * apply enable_source_extends.
  - apply extends_refl.
  - unfold exec, plic_init, function, for_range.
    change (fun i : Z => call (plic_set_source_priority (u32 i) 0) ;;
                          call (plic_enable_source_for_context 0 (u32 i)))
      with init_body.
    rewrite E. cbn [snd]. exact I.
Qed.

Lemma call_exec {A : Type} (f : fn A) (st : state) :
  snd (@call A A f st) = exec f st.
Proof. unfold call, exec. destruct (f st). reflexivity. Qed.

Lemma enable_irq_exec (irqno prio : Z) (st : state) :
  exec (plic_enable_irq irqno prio) st =
  exec (plic_set_source_priority (u32 irqno) (u32 prio))
       (mkState (mem st) (accesses st)
          (console st ++ [TraceMsg "%s(irqno=%d,prio=%d)"
       [AStr "plic_enable_irq"; AInt irqno; AInt prio]])).
Proof.
  unfold exec, plic_enable_irq. run_body.
  destruct (plic_set_source_priority _ _ _) as [[] st']. reflexivity.
Qed.

Lemma claim_irq_exec (st : state) :
  exec plic_claim_irq st =
  exec (plic_claim_context_interrupt 0)
       (mkState (mem st) (accesses st) (console st ++ [TraceMsg "%s()" [AStr "plic_claim_irq"]])).
Proof.
  unfold exec, plic_claim_irq. run_body.
  destruct (plic_claim_context_interrupt _ _) as [v st']. reflexivity.
Qed.

Lemma close_irq_exec (irqno : Z) (st : state) :
  exec (plic_close_irq irqno) st =
  exec (plic_complete_context_interrupt 0 (u32 irqno))
       (mkState (mem st) (accesses st)
          (console st ++ [TraceMsg "%s(irqno=%d)" [AStr "plic_close_irq"; AInt irqno]])).
Proof.
  unfold exec, plic_close_irq. run_body.
  destruct (plic_complete_context_interrupt _ _ _) as [[] st']. reflexivity.
Qed.

Lemma disable_irq_extends (irqno : Z) (st : state) :
  extends (at_register (PriorityReg (u32 irqno))) st (exec (plic_disable_irq irqno) st).
Proof.
  unfold plic_disable_irq. destruct (0 <? irqno).
  - replace (exec (function tt (call (plic_set_source_priority (u32 irqno) 0))) st)
      with (exec (plic_set_source_priority (u32 irqno) 0) st).
    + apply set_source_priority_extends. apply u32_range.
    + unfold exec. run_body.
      destruct (plic_set_source_priority _ _ _) as [[] st']. reflexivity.
  - exists []. split; [symmetry; apply app_nil_r | constructor].
Qed.

Lemma extends_same_log (P : access -> Prop) (st0 st st' : state) :
  accesses st0 = accesses st -> extends P st st' -> extends P st0 st'.
Proof. intros E [evs [E' F]]. exists evs. rewrite E. split; assumption. Qed.

Lemma addresses_of (st st' : state) (evs : list access) :
  accesses st' = accesses st ++ evs -> addresses st st' = map access_addr evs.
Proof.
  intros E. unfold addresses, new_accesses.
  rewrite E, skipn_app, skipn_all, Nat.sub_diag. reflexivity.
Qed.

(** C9: every access of every driver function lands on [PLIC_IOBASE] plus
    the offset the register table gives: the priority register of the
    source, the pending or enable word of the source, the threshold
    register or the claim/complete register.  For a valid source and an
    accepted level the addresses are [PLIC_IOBASE + 4 * s],
    [PLIC_IOBASE + 0x1000 + 4 * (s / 32)],
    [PLIC_IOBASE + 0x2000 + 4 * (s / 32)], [PLIC_IOBASE + 0x200000] and
    [PLIC_IOBASE + 0x200004]. *)
Theorem register_addresses (c s L irqno prio : Z) (st : state) :
  0 <= s < 2 ^ 32 ->
  (reaches_only (at_register (PriorityReg s)) st
     (exec (plic_set_source_priority s L) st) /\
   reaches_only (at_register (PendingWord s)) st
     (exec (plic_source_pending s) st) /\
   reaches_only (at_register (EnableWord s)) st
     (exec (plic_enable_source_for_context c s) st) /\
   reaches_only (at_register (EnableWord s)) st
     (exec (plic_disable_source_for_context c s) st) /\
   reaches_only (at_register ThresholdReg) st
     (exec (plic_set_context_threshold c L) st) /\
   reaches_only (at_register ClaimCompleteReg) st
     (exec (plic_claim_context_interrupt c) st) /\
   reaches_only (at_register ClaimCompleteReg) st
     (exec (plic_complete_context_interrupt c s) st) /\
   reaches_only init_register st (exec plic_init st) /\
   reaches_only (at_register (PriorityReg (u32 irqno))) st
     (exec (plic_enable_irq irqno prio) st) /\
   reaches_only (at_register (PriorityReg (u32 irqno))) st
     (exec (plic_disable_irq irqno) st) /\
   reaches_only (at_register ClaimCompleteReg) st (exec plic_claim_irq st) /\
   reaches_only (at_register ClaimCompleteReg) st
     (exec (plic_close_irq irqno) st)) /\
  (1 <= s <= PLIC_SRCCNT - 1 -> PLIC_PRIO_MIN <= L ->
   addresses st (exec (plic_set_source_priority s L) st) =
     [PLIC_IOBASE + 4 * s] /\
   addresses st (exec (plic_source_pending s) st) =
     [PLIC_IOBASE + 0x1000 + 4 * (s / 32)] /\
   addresses st (exec (plic_enable_source_for_context 0 s) st) =
     [PLIC_IOBASE + 0x2000 + 4 * (s / 32); PLIC_IOBASE + 0x2000 + 4 * (s / 32)] /\
   addresses st (exec (plic_disable_source_for_context 0 s) st) =
     [PLIC_IOBASE + 0x2000 + 4 * (s / 32); PLIC_IOBASE + 0x2000 + 4 * (s / 32)] /\
   addresses st (exec (plic_set_context_threshold 0 L) st) =
     [PLIC_IOBASE + 0x200000] /\
   addresses st (exec (plic_claim_context_interrupt 0) st) =
     [PLIC_IOBASE + 0x200004] /\
   addresses st (exec (plic_complete_context_interrupt 0 s) st) =
     [PLIC_IOBASE + 0x200004]).
Proof.
  intros Hs. split.
  - repeat split; unfold reaches_only; apply extends_new_accesses.
    + apply set_source_priority_extends. lia.
    + apply source_pending_extends. lia.
    + apply enable_source_extends.
    + apply disable_source_extends.
    + apply set_context_threshold_extends.
    + apply claim_context_interrupt_extends.
    + apply complete_context_interrupt_extends.
    + apply plic_init_extends.
    + rewrite enable_irq_exec.
      eapply extends_same_log;
        [| apply set_source_priority_extends; apply u32_range]; reflexivity.
    + apply disable_irq_extends.
    + rewrite claim_irq_exec.
      eapply extends_same_log;
        [| apply claim_context_interrupt_extends]; reflexivity.
    + rewrite close_irq_exec.
      eapply extends_same_log;
        [| apply complete_context_interrupt_extends]; reflexivity.
  - intros Hv HL. unfold exec.
    rewrite set_source_priority_accepted, source_pending_accepted,
      enable_source_accepted, disable_source_accepted,
      set_context_threshold_accepted, claim_context_interrupt_accepted,
      complete_context_interrupt_accepted by lia.
    cbn [snd].
    repeat split;
      (erewrite addresses_of by (cbn [accesses]; reflexivity));
      unfold reg_addr, reg_offset; cbn [map access_addr];
      rewrite ?Z.add_0_l, ?Z.add_assoc; reflexivity.
Qed.

(** *** Pending, claim and completion *)

Lemma new_accesses_same (st : state) : new_accesses st st = [].
Proof. unfold new_accesses. apply skipn_all. Qed.

Lemma new_accesses_app (st st' : state) (evs : list access) :
  accesses st' = accesses st ++ evs -> new_accesses st st' = evs.
Proof.
  intros E. unfold new_accesses.
  rewrite E, skipn_app, skipn_all, Nat.sub_diag. reflexivity.
Qed.

(** X1: [plic_source_pending] for any [uint32_t] id: up to [PLIC_SRCCNT] it
    loads the pending word of the id once and returns 1 or 0 as bit
    [s mod 32] is set or clear; above, it returns 0 without an access.  It
    never stores and never prints. *)
Theorem source_pending_result (s : Z) (st : state) :
  0 <= s < 2 ^ 32 ->
  result (plic_source_pending s) st =
    (if (s <=? PLIC_SRCCNT) && pending_bit st s then 1 else 0) /\
  mem (exec (plic_source_pending s) st) = mem st /\
  console (exec (plic_source_pending s) st) = console st /\
  new_accesses st (exec (plic_source_pending s) st) =
    (if s <=? PLIC_SRCCNT then [Rd (PLIC_IOBASE + 0x1000 + 4 * (s / 32))] else []).
Proof.
  intros Hs. destruct (Z.leb_spec s PLIC_SRCCNT) as [Le | Gt].
  - destruct (source_pending_reads_bit s st) as [R [M A]]; [lia |].
    rewrite R, M, A. cbn [andb]. repeat split.
    + unfold exec. rewrite source_pending_accepted by lia. reflexivity.
    + unfold reg_addr, reg_offset. rewrite Z.add_assoc. reflexivity.
  - destruct (source_pending_out_of_range s st) as [R E]; [lia |].
    rewrite R, E. cbn [andb]. repeat split. apply new_accesses_same.
Qed.

(** X2: A context other than 0 is turned away by every function that takes
    one: nothing is accessed or changed, and a claim yields 0. *)
Theorem other_context_ignored (c s L : Z) (st : state) :
  c <> 0 ->
  exec (plic_enable_source_for_context c s) st = st /\
  exec (plic_disable_source_for_context c s) st = st /\
  exec (plic_set_context_threshold c L) st = st /\
  plic_claim_context_interrupt c st = (0, st) /\
  exec (plic_complete_context_interrupt c s) st = st.
Proof.
  intros Hc. unfold exec.
  rewrite enable_source_rejected, disable_source_rejected,
    set_context_threshold_rejected, claim_context_interrupt_rejected,
    complete_context_interrupt_rejected by lia.
  repeat split.
Qed.

(** X3: [plic_claim_irq] loads the claim register once and returns its word
    read as an [int]; it stores nothing, leaves every register as it was
    and prints its trace line.  A register holding 0 gives 0. *)
Theorem claim_irq_reads_claim_register (st : state) :
  result plic_claim_irq st = s32 (mem st (PLIC_IOBASE + 0x200004)) /\
  (0 <= mem st (PLIC_IOBASE + 0x200004) < 2 ^ 31 ->
     result plic_claim_irq st = mem st (PLIC_IOBASE + 0x200004)) /\
  mem (exec plic_claim_irq st) = mem st /\
  new_accesses st (exec plic_claim_irq st) = [Rd (PLIC_IOBASE + 0x200004)] /\
  console (exec plic_claim_irq st) =
    console st ++ [TraceMsg "%s()" [AStr "plic_claim_irq"]].
Proof.
  assert (R : result plic_claim_irq st = s32 (mem st (PLIC_IOBASE + 0x200004))).
  { unfold result, plic_claim_irq. run_body.
    rewrite claim_context_interrupt_accepted. reflexivity. }
  split; [exact R | split].
  - intros Hv. rewrite R. unfold s32.
    change (2 ^ 31) with 2147483648 in *. change (2 ^ 32) with 4294967296.
    rewrite Z.mod_small by lia. lia.
  - rewrite claim_irq_exec. unfold exec.
    rewrite claim_context_interrupt_accepted. cbn [snd mem console].
    repeat split. apply new_accesses_app. reflexivity.
Qed.

(** X4: [plic_close_irq]: an [irqno] from 1 to [PLIC_SRCCNT] is stored in the
    claim/complete register by one store, every other register staying as
    it was; any other [irqno] only prints the trace line. *)
Theorem close_irq_behaviour (irqno : Z) (st : state) :
  - 2 ^ 31 <= irqno < 2 ^ 31 ->
  (1 <= irqno <= PLIC_SRCCNT ->
     mem (exec (plic_close_irq irqno) st) (PLIC_IOBASE + 0x200004) = irqno /\
     (forall a, a <> PLIC_IOBASE + 0x200004 ->
        mem (exec (plic_close_irq irqno) st) a = mem st a) /\
     new_accesses st (exec (plic_close_irq irqno) st) =
       [Wr (PLIC_IOBASE + 0x200004) irqno]) /\
  (irqno <= 0 \/ PLIC_SRCCNT < irqno ->
     exec (plic_close_irq irqno) st =
     mkState (mem st) (accesses st)
       (console st ++
        [TraceMsg "%s(irqno=%d)" [AStr "plic_close_irq"; AInt irqno]])).
Proof.
  intros Hint. rewrite close_irq_exec. unfold exec. split.
  - intros Hv. unfold PLIC_SRCCNT in Hv.
    assert (U : u32 irqno = irqno).
    { apply u32_small. change (2 ^ 32) with 4294967296. lia. }
    rewrite U, complete_context_interrupt_accepted by (unfold PLIC_SRCCNT; lia).
    cbn [snd mem]. rewrite U. unfold update.
    change (reg_addr ClaimCompleteReg) with (PLIC_IOBASE + 0x200004).
    rewrite Z.eqb_refl. split; [reflexivity | split].
    + intros a Ha. replace (a =? _) with false by lia. reflexivity.
    + apply new_accesses_app. reflexivity.
  - intros Hbad.
    rewrite complete_context_interrupt_rejected; [reflexivity |].
    rewrite u32_of_int by exact Hint. unfold PLIC_SRCCNT in *.
    change (2 ^ 31) with 2147483648 in Hint. change (2 ^ 32) with 4294967296.
    destruct (Z.ltb_spec irqno 0); lia.
Qed.

(** X5: Closing the id that [plic_claim_irq] returned puts back into the
    claim/complete register the word the claim read: the register file is
    as before the claim. *)
Theorem claim_then_close (st : state) (a : Z) :
  mem_ok (mem st) ->
  mem (exec (plic_close_irq (result plic_claim_irq st)) (exec plic_claim_irq st)) a =
  mem st a.
Proof.
  intros Hok.
  assert (R : result plic_claim_irq st = s32 (mem st (reg_addr ClaimCompleteReg))).
  { unfold result, plic_claim_irq. run_body.
    rewrite claim_context_interrupt_accepted. reflexivity. }
  assert (M : mem (exec plic_claim_irq st) = mem st).
  { rewrite claim_irq_exec. unfold exec.
    rewrite claim_context_interrupt_accepted. reflexivity. }
  rewrite R, close_irq_exec, u32_s32.
  pose proof (Hok (reg_addr ClaimCompleteReg)) as Hv.
  rewrite (u32_small _ Hv). unfold exec at 1.
  destruct (negb (0 =? 0) || (mem st (reg_addr ClaimCompleteReg) >? PLIC_SRCCNT)
            || (mem st (reg_addr ClaimCompleteReg) <=? 0)) eqn:G.
  - rewrite complete_context_interrupt_rejected by exact G.
    cbn [snd mem]. rewrite M. reflexivity.
  - rewrite complete_context_interrupt_accepted by lia.
    cbn [snd mem]. rewrite M. unfold update.
    destruct (Z.eqb_spec a (reg_addr ClaimCompleteReg)) as [E | E];
      [| reflexivity].
    rewrite E. apply u32_small. exact Hv.
Qed.

(** *** Priorities through the exported calls *)

(** X6: A level above [PLIC_PRIO_MAX] passes the guard and is stored as it is:
    the register does not hold the clamp. *)
Theorem set_source_priority_not_clamped (s L : Z) (st : state) :
  1 <= s <= PLIC_SRCCNT - 1 -> PLIC_PRIO_MAX < L < 2 ^ 32 ->
  priority (exec (plic_set_source_priority s L) st) s = L /\
  priority (exec (plic_set_source_priority s L) st) s <>
  clamp L PLIC_PRIO_MIN PLIC_PRIO_MAX.
Proof.
  intros Hs HL. rewrite set_source_priority_stores by lia.
  split; [reflexivity |]. unfold clamp. lia.
Qed.

(** X7: For a valid source the priority store disturbs nothing else: the
    other priorities, every enable and pending bit, the threshold, the
    claim/complete register and the console are as before. *)
Theorem set_source_priority_touches_one_register (s L : Z) (st : state) :
  1 <= s <= PLIC_SRCCNT - 1 ->
  (forall s', s' <> s ->
     priority (exec (plic_set_source_priority s L) st) s' = priority st s') /\
  (forall s', 0 <= s' ->
     source_enabled (exec (plic_set_source_priority s L) st) s' =
       source_enabled st s' /\
     pending_bit (exec (plic_set_source_priority s L) st) s' =
       pending_bit st s') /\
  context_threshold (exec (plic_set_source_priority s L) st) =
    context_threshold st /\
  mem (exec (plic_set_source_priority s L) st) (PLIC_IOBASE + 0x200004) =
    mem st (PLIC_IOBASE + 0x200004) /\
  console (exec (plic_set_source_priority s L) st) = console st.
Proof.
  intros Hs. unfold PLIC_SRCCNT in Hs.
  assert (F : forall a, a <> reg_addr (PriorityReg s) ->
                mem (exec (plic_set_source_priority s L) st) a = mem st a)
    by (intros a Ha; apply set_source_priority_frame; [lia | exact Ha]).
  unfold reg_addr, reg_offset in F.
  split; [| split; [| split; [| split]]].
  - intros s' Hne. unfold priority, reg_addr, reg_offset. apply F. lia.
  - intros s' Hs'.
    assert (0 <= s' / 32) by (apply Z.div_pos; lia).
    unfold source_enabled, pending_bit, reg_addr, reg_offset.
    rewrite !F by lia. split; reflexivity.
  - unfold context_threshold, reg_addr, reg_offset. apply F. lia.
  - apply F. lia.
  - unfold exec.
    destruct ((s >? PLIC_SRCCNT) || (s =? 0) || (L <? PLIC_PRIO_MIN)) eqn:G.
    + rewrite set_source_priority_rejected by exact G. reflexivity.
    + rewrite set_source_priority_accepted by (try exact G; lia). reflexivity.
Qed.

(** X8: [plic_enable_irq] on a valid source: a [prio] whose unsigned value is
    not below [PLIC_PRIO_MIN] ends in the priority register unclamped, a
    negative one as [prio + 2 ^ 32]; no other register changes.  A [prio]
    below [PLIC_PRIO_MIN] leaves every register as it was.  Either way the
    call prints one trace line. *)
Theorem enable_irq_sets_priority (irqno prio : Z) (st : state) :
  1 <= irqno <= PLIC_SRCCNT - 1 -> - 2 ^ 31 <= prio < 2 ^ 31 ->
  (PLIC_PRIO_MIN <= u32 prio ->
     priority (exec (plic_enable_irq irqno prio) st) irqno =
       (if prio <? 0 then prio + 2 ^ 32 else prio) /\
     (forall a, a <> PLIC_IOBASE + 4 * irqno ->
        mem (exec (plic_enable_irq irqno prio) st) a = mem st a)) /\
  (u32 prio < PLIC_PRIO_MIN ->
     mem (exec (plic_enable_irq irqno prio) st) = mem st /\
     accesses (exec (plic_enable_irq irqno prio) st) = accesses st) /\
  console (exec (plic_enable_irq irqno prio) st) =
    console st ++
    [TraceMsg "%s(irqno=%d,prio=%d)"
       [AStr "plic_enable_irq"; AInt irqno; AInt prio]].
Proof.
  intros Hv Hp. unfold PLIC_SRCCNT in Hv.
  assert (U : u32 irqno = irqno)
    by (apply u32_small; change (2 ^ 32) with 4294967296; lia).
  pose proof (u32_range prio) as Hu.
  rewrite enable_irq_exec, U. split; [| split].
  - intros Hmin. split.
    + rewrite set_source_priority_stores by (unfold PLIC_SRCCNT; lia).
      apply u32_of_int. exact Hp.
    + intros a Ha. rewrite set_source_priority_frame;
        [reflexivity | lia | unfold reg_addr, reg_offset; lia].
  - intros Hlow. unfold exec.
    rewrite set_source_priority_rejected by lia. split; reflexivity.
  - unfold exec.
    destruct ((irqno >? PLIC_SRCCNT) || (irqno =? 0) || (u32 prio <? PLIC_PRIO_MIN)) eqn:G.
    + rewrite set_source_priority_rejected by exact G. reflexivity.
    + rewrite set_source_priority_accepted by (try exact G; lia). reflexivity.
Qed.

(** X9: [plic_enable_irq] repeated with the same arguments leaves the
    registers as after the first call, whatever the arguments. *)
Theorem enable_irq_idempotent (irqno prio : Z) (st : state) (a : Z) :
  mem (exec (plic_enable_irq irqno prio) (exec (plic_enable_irq irqno prio) st)) a =
  mem (exec (plic_enable_irq irqno prio) st) a.
Proof.
  rewrite !enable_irq_exec. unfold exec.
  pose proof (u32_range irqno) as Hi.
  destruct ((u32 irqno >? PLIC_SRCCNT) || (u32 irqno =? 0)
            || (u32 prio <? PLIC_PRIO_MIN)) eqn:G.
  - rewrite !set_source_priority_rejected by exact G. reflexivity.
  - rewrite !set_source_priority_accepted by (try exact G; lia).
    cbn [snd mem]. unfold update.
    destruct (a =? reg_addr (PriorityReg (u32 irqno))); reflexivity.
Qed.

(** X10: When [PLIC_PRIO_MIN] is above 0, the level 0 that [plic_disable_irq]
    passes down is rejected: for every positive [irq] the call changes
    nothing at all. *)
Theorem disable_irq_level_rejected (irq : Z) (st : state) :
  0 < PLIC_PRIO_MIN -> 0 < irq ->
  exec (plic_disable_irq irq) st = st.
Proof.
  intros Hmin Hpos. unfold exec, plic_disable_irq.
  replace (0 <? irq) with true by lia. run_body.
  rewrite set_source_priority_rejected by lia. reflexivity.
Qed.

(** X11: After [plic_init], one [plic_enable_irq] with an accepted priority
    makes a valid source deliverable: its enable bit for context 0 is set
    and its priority register holds the priority. *)
Theorem init_then_enable_irq (irqno prio : Z) (st : state) :
  1 <= irqno <= PLIC_SRCCNT - 1 -> PLIC_PRIO_MIN <= prio < 2 ^ 31 ->
  source_enabled (exec (plic_enable_irq irqno prio) (exec plic_init st)) irqno = true /\
  priority (exec (plic_enable_irq irqno prio) (exec plic_init st)) irqno = prio.
Proof.
  intros Hv Hp. unfold PLIC_SRCCNT in Hv.
  destruct (plic_init_done st) as [En _].
  assert (U : u32 irqno = irqno)
    by (apply u32_small; change (2 ^ 32) with 4294967296; lia).
  assert (P : u32 prio = prio).
  { apply u32_small. change (2 ^ 31) with 2147483648 in Hp.
    change (2 ^ 32) with 4294967296. lia. }
  rewrite enable_irq_exec, U, P. split.
  - unfold source_enabled.
    assert (0 <= irqno / 32) by (apply Z.div_pos; lia).
    rewrite set_source_priority_frame;
      [| lia | unfold reg_addr, reg_offset; lia].
    cbn [mem]. fold (source_enabled (exec plic_init st) irqno).
    rewrite En by lia.
    replace ((1 <=? irqno) && (irqno <? PLIC_SRCCNT)) with true
      by (unfold PLIC_SRCCNT; lia).
    apply orb_true_r.
  - apply set_source_priority_stores.
    + unfold PLIC_SRCCNT. lia.
    + change (2 ^ 31) with 2147483648 in Hp. change (2 ^ 32) with 4294967296. lia.
Qed.

(** *** What initialisation leaves alone *)

Lemma set_source_priority_console (s L : Z) (st : state) :
  0 <= s -> console (exec (plic_set_source_priority s L) st) = console st.
Proof.
  intros Hs. unfold exec.
  destruct ((s >? PLIC_SRCCNT) || (s =? 0) || (L <? PLIC_PRIO_MIN)) eqn:G.
  - rewrite set_source_priority_rejected by exact G. reflexivity.
  - rewrite set_source_priority_accepted by assumption. reflexivity.
Qed.

Lemma enable_source_console (c s : Z) (st : state) :
  console (exec (plic_enable_source_for_context c s) st) = console st.
Proof.
  unfold exec.
  destruct (negb (c =? 0) || (s >? PLIC_SRCCNT) || (s <=? 0)) eqn:G.
  - rewrite enable_source_rejected by exact G. reflexivity.
  - replace c with 0 by lia. rewrite enable_source_accepted by lia. reflexivity.
Qed.

Lemma plic_init_frame_inv (st : state) :
  console (exec plic_init st) = console st /\
  forall a,
    a < PLIC_IOBASE + 0x2000 \/ PLIC_IOBASE + 0x2080 <= a ->
    0 < PLIC_PRIO_MIN \/ a < PLIC_IOBASE + 4 \/ PLIC_IOBASE + 0x1000 <= a ->
    mem (exec plic_init st) a = mem st a.
Proof.
  destruct (for_count_invariant
              (fun _ st' =>
                 console st' = console st /\
                 forall a,
                   a < PLIC_IOBASE + 0x2000 \/ PLIC_IOBASE + 0x2080 <= a ->
                   0 < PLIC_PRIO_MIN \/ a < PLIC_IOBASE + 4 \/
                   PLIC_IOBASE + 0x1000 <= a ->
                   mem st' a = mem st a)
              init_body (Z.to_nat (PLIC_SRCCNT - 0)) 0 st) as [st' [E I]].
  - intros i st1 Hi [C M]. rewrite init_body_exec. eexists. split; [reflexivity |].
    assert (Hr : 0 <= i < 1024) by (unfold PLIC_SRCCNT in Hi; lia).
    assert (U : u32 i = i)
      by (apply u32_small; change (2 ^ 32) with 4294967296; lia).
    assert (Hd : 0 <= i / 32 < 32)
      by (split; [apply Z.div_pos; lia | apply Z.div_lt_upper_bound; lia]).
    rewrite U. split.
    + rewrite enable_source_console, set_source_priority_console by lia. exact C.
    + intros a Ha Hb.
      rewrite enable_source_frame;
        [| lia | unfold reg_addr, reg_offset; lia].
      destruct ((i >? PLIC_SRCCNT) || (i =? 0) || (0 <? PLIC_PRIO_MIN)) eqn:G.
      * unfold exec. rewrite set_source_priority_rejected by exact G.
        cbn [snd]. apply M; assumption.
      * rewrite set_source_priority_frame;
          [apply M; assumption | lia | unfold reg_addr, reg_offset; lia].
  - split; [reflexivity | intros; reflexivity].
  - unfold exec, plic_init, function, for_range.
    change (fun i : Z => call (plic_set_source_priority (u32 i) 0) ;;
                          call (plic_enable_source_for_context 0 (u32 i)))
      with init_body.
    rewrite E. cbn [snd]. exact I.
Qed.

(** X12: [plic_init] stays within the priority registers of sources 1 to 1023
    and the 32 enable words of context 0: the pending words, the
    threshold, the claim/complete register and every other address keep
    their words, and nothing is printed. *)
Theorem plic_init_frame (st : state) :
  (forall a,
     a < PLIC_IOBASE + 4 \/
     PLIC_IOBASE + 0x1000 <= a < PLIC_IOBASE + 0x2000 \/
     PLIC_IOBASE + 0x2080 <= a ->
     mem (exec plic_init st) a = mem st a) /\
  (forall s, 0 <= s < PLIC_SRCCNT ->
     pending_bit (exec plic_init st) s = pending_bit st s) /\
  context_threshold (exec plic_init st) = context_threshold st /\
  console (exec plic_init st) = console st.
Proof.
  destruct (plic_init_frame_inv st) as [C M].
  split; [| split; [| split]].
  - intros a Ha. apply M; lia.
  - intros s Hs. unfold PLIC_SRCCNT in Hs.
    assert (Hd : 0 <= s / 32 < 32)
      by (split; [apply Z.div_pos; lia | apply Z.div_lt_upper_bound; lia]).
    unfold pending_bit, reg_addr, reg_offset. rewrite M by lia. reflexivity.
  - unfold context_threshold, reg_addr, reg_offset. apply M; lia.
  - exact C.
Qed.

(** X13: When [PLIC_PRIO_MIN] is above 0, every [plic_set_source_priority (i,
    0)] of the loop is rejected: [plic_init] changes no word outside the
    32 enable words, and every priority register keeps its word. *)
Theorem plic_init_level_rejected (st : state) :
  0 < PLIC_PRIO_MIN ->
  (forall a, a < PLIC_IOBASE + 0x2000 \/ PLIC_IOBASE + 0x2080 <= a ->
     mem (exec plic_init st) a = mem st a) /\
  (forall s, 0 <= s < PLIC_SRCCNT ->
     priority (exec plic_init st) s = priority st s).
Proof.
  intros Hmin. destruct (plic_init_frame_inv st) as [_ M]. split.
  - intros a Ha. apply M; [exact Ha | left; exact Hmin].
  - intros s Hs. unfold PLIC_SRCCNT in Hs.
    unfold priority, reg_addr, reg_offset. apply M; [lia | left; exact Hmin].
Qed.

(** X14: A second [plic_init] changes no enable bit and no priority register
    of the sources below [PLIC_SRCCNT]. *)
Theorem plic_init_twice (st : state) (s : Z) :
  0 <= s < PLIC_SRCCNT ->
  source_enabled (exec plic_init (exec plic_init st)) s =
    source_enabled (exec plic_init st) s /\
  priority (exec plic_init (exec plic_init st)) s =
    priority (exec plic_init st) s.
Proof.
  intros Hs.
  destruct (plic_init_done st) as [En Pr].
  destruct (plic_init_done (exec plic_init st)) as [En' Pr'].
  rewrite En', Pr' by lia. rewrite En, Pr by lia. split.
  - rewrite <- orb_assoc, orb_diag. reflexivity.
  - destruct ((1 <=? s) && (s <? PLIC_SRCCNT) && (PLIC_PRIO_MIN =? 0));
      reflexivity.
Qed.

(** *** How enabling and disabling compose *)

Lemma u32_ext (x y : Z) :
  (forall j, 0 <= j < 32 -> Z.testbit x j = Z.testbit y j) -> u32 x = u32 y.
Proof.
  intros H. apply Z.bits_inj'. intros j Hj.
  destruct (Z.ltb_spec j 32) as [Lt | Ge].
  - rewrite !u32_testbit by lia. apply H. lia.
  - unfold u32. rewrite !Z.mod_pow2_bits_high by lia. reflexivity.
Qed.

Lemma clear_mask_bits (k j : Z) :
  0 <= k < 32 -> 0 <= j < 32 ->
  Z.testbit (Z.lnot (s32 (Z.shiftl 1 k))) j = negb (k =? j).
Proof.
  intros Hk Hj. rewrite <- (u32_testbit _ j) by exact Hj.
  apply clear_mask_testbit; assumption.
Qed.

Lemma enable_mem (s a : Z) (st : state) :
  mem (exec (plic_enable_source_for_context 0 s) st) a =
  if (1 <=? s) && (s <=? PLIC_SRCCNT) && (a =? reg_addr (EnableWord s))
  then u32 (Z.lor (mem st a) (2 ^ (s mod 32)))
  else mem st a.
Proof.
  unfold exec.
  destruct ((1 <=? s) && (s <=? PLIC_SRCCNT)) eqn:G; cbn [andb].
  - rewrite enable_source_accepted by lia. cbn [snd mem]. unfold update.
    destruct (Z.eqb_spec a (reg_addr (EnableWord s))) as [E | E];
      [rewrite E |]; reflexivity.
  - rewrite enable_source_rejected by lia. reflexivity.
Qed.

Lemma disable_mem (s a : Z) (st : state) :
  mem (exec (plic_disable_source_for_context 0 s) st) a =
  if (1 <=? s) && (s <=? PLIC_SRCCNT) && (a =? reg_addr (EnableWord s))
  then u32 (Z.land (mem st a) (u32 (Z.lnot (s32 (Z.shiftl 1 (s mod 32))))))
  else mem st a.
Proof.
  unfold exec.
  destruct ((1 <=? s) && (s <=? PLIC_SRCCNT)) eqn:G; cbn [andb].
  - rewrite disable_source_accepted by lia. cbn [snd mem]. unfold update.
    destruct (Z.eqb_spec a (reg_addr (EnableWord s))) as [E | E];
      [rewrite E |]; reflexivity.
  - rewrite disable_source_rejected by lia. reflexivity.
Qed.

(** X15: Enabling a source twice, or disabling it twice, leaves the registers
    as after the first call. *)
Theorem enable_disable_idempotent (s : Z) (st : state) (a : Z) :
  mem (exec (plic_enable_source_for_context 0 s)
         (exec (plic_enable_source_for_context 0 s) st)) a =
  mem (exec (plic_enable_source_for_context 0 s) st) a /\
  mem (exec (plic_disable_source_for_context 0 s)
         (exec (plic_disable_source_for_context 0 s) st)) a =
  mem (exec (plic_disable_source_for_context 0 s) st) a.
Proof.
  assert (Hk : 0 <= s mod 32 < 32) by (apply Z.mod_pos_bound; lia).
  split.
  - rewrite (enable_mem s a (exec _ st)), enable_mem.
    destruct ((1 <=? s) && (s <=? PLIC_SRCCNT) && (a =? reg_addr (EnableWord s)));
      [| reflexivity].
    apply u32_ext. intros j Hj.
    rewrite Z.lor_spec, u32_testbit, Z.lor_spec by lia.
    rewrite <- orb_assoc, orb_diag. reflexivity.
  - rewrite (disable_mem s a (exec _ st)), disable_mem.
    destruct ((1 <=? s) && (s <=? PLIC_SRCCNT) && (a =? reg_addr (EnableWord s)));
      [| reflexivity].
    apply u32_ext. intros j Hj.
    rewrite Z.land_spec, u32_testbit, Z.land_spec by lia.
    rewrite <- andb_assoc, andb_diag. reflexivity.
Qed.

(** X16: Calls on two different sources can be made in either order: two
    enables, two disables, or an enable and a disable give the same
    register file both ways round. *)
Theorem distinct_sources_commute (s1 s2 : Z) (st : state) (a : Z) :
  s1 <> s2 ->
  mem (exec (plic_enable_source_for_context 0 s2)
         (exec (plic_enable_source_for_context 0 s1) st)) a =
  mem (exec (plic_enable_source_for_context 0 s1)
         (exec (plic_enable_source_for_context 0 s2) st)) a /\
  mem (exec (plic_disable_source_for_context 0 s2)
         (exec (plic_disable_source_for_context 0 s1) st)) a =
  mem (exec (plic_disable_source_for_context 0 s1)
         (exec (plic_disable_source_for_context 0 s2) st)) a /\
  mem (exec (plic_disable_source_for_context 0 s2)
         (exec (plic_enable_source_for_context 0 s1) st)) a =
  mem (exec (plic_enable_source_for_context 0 s1)
         (exec (plic_disable_source_for_context 0 s2) st)) a.
Proof.
  intros Hne.
  assert (Hk1 : 0 <= s1 mod 32 < 32) by (apply Z.mod_pos_bound; lia).
  assert (Hk2 : 0 <= s2 mod 32 < 32) by (apply Z.mod_pos_bound; lia).
  assert (Hbit : reg_addr (EnableWord s1) = reg_addr (EnableWord s2) ->
                 s1 mod 32 <> s2 mod 32).
  { unfold reg_addr, reg_offset. intros E M. apply Hne.
    apply source_index; lia. }
  split; [| split].
  - rewrite (enable_mem s2 a (exec _ st)), (enable_mem s1 a (exec _ st)),
      !enable_mem.
    destruct ((1 <=? s1) && (s1 <=? PLIC_SRCCNT)); cbn [andb];
      destruct ((1 <=? s2) && (s2 <=? PLIC_SRCCNT)); cbn [andb];
      try reflexivity.
    destruct (Z.eqb_spec a (reg_addr (EnableWord s1))) as [E1 | E1];
      destruct (Z.eqb_spec a (reg_addr (EnableWord s2))) as [E2 | E2];
      try reflexivity.
    apply u32_ext. intros j Hj.
    rewrite !Z.lor_spec, !u32_testbit, !Z.lor_spec by lia.
    rewrite <- !orb_assoc. f_equal. apply orb_comm.
  - rewrite (disable_mem s2 a (exec _ st)), (disable_mem s1 a (exec _ st)),
      !disable_mem.
    destruct ((1 <=? s1) && (s1 <=? PLIC_SRCCNT)); cbn [andb];
      destruct ((1 <=? s2) && (s2 <=? PLIC_SRCCNT)); cbn [andb];
      try reflexivity.
    destruct (Z.eqb_spec a (reg_addr (EnableWord s1))) as [E1 | E1];
      destruct (Z.eqb_spec a (reg_addr (EnableWord s2))) as [E2 | E2];
      try reflexivity.
    apply u32_ext. intros j Hj.
    repeat (rewrite ?Z.land_spec, ?u32_testbit by lia).
    rewrite <- !andb_assoc. f_equal. apply andb_comm.
  - rewrite (disable_mem s2 a (exec _ st)), (enable_mem s1 a (exec _ st)),
      enable_mem, disable_mem.
    destruct ((1 <=? s1) && (s1 <=? PLIC_SRCCNT)); cbn [andb];
      destruct ((1 <=? s2) && (s2 <=? PLIC_SRCCNT)); cbn [andb];
      try reflexivity.
    destruct (Z.eqb_spec a (reg_addr (EnableWord s1))) as [E1 | E1];
      destruct (Z.eqb_spec a (reg_addr (EnableWord s2))) as [E2 | E2];
      try reflexivity.
    assert (K : s1 mod 32 <> s2 mod 32) by (apply Hbit; congruence).
    apply u32_ext. intros j Hj.
    repeat (rewrite ?Z.land_spec, ?Z.lor_spec, ?u32_testbit by lia).
    rewrite !clear_mask_bits, !Z.pow2_bits_eqb by lia.
    destruct (Z.eqb_spec (s1 mod 32) j) as [J1 | J1];
      destruct (Z.eqb_spec (s2 mod 32) j) as [J2 | J2];
      destruct (Z.testbit (mem st a) j); cbn [andb orb negb];
      try reflexivity.
    + exfalso. apply K. congruence.
    + exfalso. apply K. congruence.
Qed.

(** X17: Disabling a valid source and then enabling it leaves its enable bit
    set and every other source's bit as it was: the last call decides. *)
Theorem disable_then_enable (s : Z) (st : state) :
  1 <= s <= PLIC_SRCCNT - 1 ->
  source_enabled (exec (plic_enable_source_for_context 0 s)
                    (exec (plic_disable_source_for_context 0 s) st)) s = true /\
  (forall s', s' <> s ->
     source_enabled (exec (plic_enable_source_for_context 0 s)
                       (exec (plic_disable_source_for_context 0 s) st)) s' =
     source_enabled st s').
Proof.
  intros Hs. split.
  - rewrite enable_sets_bit by lia. rewrite Z.eqb_refl. apply orb_true_r.
  - intros s' Hne. rewrite enable_sets_bit, disable_clears_bit by lia.
    replace (s' =? s) with false by lia.
    rewrite orb_false_r, andb_true_r. reflexivity.
Qed.

End Plic.

(** ** The driver at concrete constants

    The closed statements below run the driver at the default base
    address.  [plic.h] being absent, they take the priority levels as the
    RISC-V PLIC numbers them: 1 the lowest and 7 the highest, 0 standing
    for "never interrupt"; where 0 has to count as the minimum they take 0
    to 7. *)

Lemma default_window :
  0 <= PLIC_IOBASE_default /\ PLIC_IOBASE_default + 0x200004 <= 0x7FFFFFFF.
Proof. unfold PLIC_IOBASE_default. lia. Qed.

Lemma levels_1_7 : 0 <= 1 <= 7 /\ 7 < 2 ^ 32.
Proof. lia. Qed.

Lemma levels_0_7 : 0 <= 0 <= 7 /\ 7 < 2 ^ 32.
Proof. lia. Qed.

Lemma reset_mem_ok : mem_ok (mem reset_state).
Proof. intros a. cbn. lia. Qed.

(** C1, witness: source 5, level 3 within 1 to 7, and level 0 below 1. *)
Lemma set_source_priority_level_witness :
  priority PLIC_IOBASE_default
    (exec (plic_set_source_priority PLIC_IOBASE_default 1 7 5 3) reset_state) 5 =
  clamp 3 1 7 /\
  exec (plic_set_source_priority PLIC_IOBASE_default 1 7 5 0) reset_state =
  reset_state.
Proof.
  split.
  - apply (set_source_priority_level PLIC_IOBASE_default 1 7
             default_window levels_1_7 5 3 reset_state);
      unfold PLIC_SRCCNT; lia.
  - apply (set_source_priority_level PLIC_IOBASE_default 1 7
             default_window levels_1_7 5 0 reset_state);
      unfold PLIC_SRCCNT; lia.
Defined.

(** C1, counterexample: with levels 1 to 7, [plic_set_source_priority (5,
    7 + 100)] leaves 107 in the priority register of source 5, not 7; and
    level 0, below the minimum, leaves the register as it was, not at 1. *)
Lemma set_source_priority_clamp_counterexample :
  priority PLIC_IOBASE_default
    (exec (plic_set_source_priority PLIC_IOBASE_default 1 7 5 (7 + 100))
       reset_state) 5 <> clamp (7 + 100) 1 7 /\
  priority PLIC_IOBASE_default
    (exec (plic_set_source_priority PLIC_IOBASE_default 1 7 5 0)
       reset_state) 5 <> clamp 0 1 7.
Proof. split; vm_compute; discriminate. Qed.

(** C2: source id 1024 = [PLIC_SRCCNT] passes the guards [srcno >
    PLIC_SRCCNT]: each of the four calls accesses a register.  The
    priority write lands on pending word 0, the enable writes on the word
    after the 32 enable words of context 0. *)
Theorem source_1024_passes_the_guards :
  accesses (exec (plic_set_source_priority PLIC_IOBASE_default 1 7 1024 7)
              reset_state) = [Wr 0x0C001000 7] /\
  accesses (exec (plic_enable_source_for_context PLIC_IOBASE_default 0 1024)
              reset_state) = [Rd 0x0C002080; Wr 0x0C002080 1] /\
  accesses (exec (plic_disable_source_for_context PLIC_IOBASE_default 0 1024)
              (with_register 0x0C002080 1)) = [Rd 0x0C002080; Wr 0x0C002080 0] /\
  accesses (exec (plic_complete_context_interrupt PLIC_IOBASE_default 0 1024)
              reset_state) = [Wr 0x0C200004 1024].
Proof. repeat split; vm_compute; reflexivity. Qed.

(** C3, witness: from [reset_state] with levels 0 to 7, source 5 ends
    enabled with priority 0. *)
Lemma plic_init_establishes_witness :
  source_enabled PLIC_IOBASE_default
    (exec (plic_init PLIC_IOBASE_default 0 7) reset_state) 5 = true /\
  priority PLIC_IOBASE_default
    (exec (plic_init PLIC_IOBASE_default 0 7) reset_state) 5 = 0.
Proof.
  destruct (plic_init_establishes PLIC_IOBASE_default 0 7
              default_window levels_0_7 reset_state) as [Valid _].
  destruct (Valid 5) as [En Pr]; [unfold PLIC_SRCCNT; lia |].
  split; [exact En | apply Pr; reflexivity].
Defined.

(** C3, counterexample: after [plic_init] from [reset_state] the enable
    bit of source 0 is still clear. *)
Lemma plic_init_source_0_counterexample :
  source_enabled PLIC_IOBASE_default
    (exec (plic_init PLIC_IOBASE_default 1 7) reset_state) 0 <> true.
Proof. vm_compute. discriminate. Qed.

(** C4, witness: source 5 from [reset_state], where its bit is clear: the
    round trip gives the registers back, and source 6 keeps its bit; the
    rejected id 0, with bit 0 of enable word 0 set, leaves the state as it
    was. *)
Lemma enable_then_disable_witness :
  (forall a,
     mem (exec (plic_disable_source_for_context PLIC_IOBASE_default 0 5)
            (exec (plic_enable_source_for_context PLIC_IOBASE_default 0 5)
               reset_state)) a = mem reset_state a) /\
  source_enabled PLIC_IOBASE_default
    (exec (plic_enable_source_for_context PLIC_IOBASE_default 0 5) reset_state) 6 =
  source_enabled PLIC_IOBASE_default reset_state 6 /\
  exec (plic_disable_source_for_context PLIC_IOBASE_default 0 0)
    (exec (plic_enable_source_for_context PLIC_IOBASE_default 0 0)
       (with_register 0x0C002000 1)) = with_register 0x0C002000 1.
Proof.
  destruct (enable_then_disable PLIC_IOBASE_default default_window 5
              reset_state reset_mem_ok) as [Others [Clear _]].
  destruct (enable_then_disable PLIC_IOBASE_default default_window 0
              (with_register 0x0C002000 1))
    as [_ [_ [_ Rejected]]].
  { intros a. unfold with_register, update. cbn [mem].
    destruct (a =? 0x0C002000); cbn; lia. }
  split; [| split].
  - apply Clear. reflexivity.
  - apply (Others 6). lia.
  - apply Rejected. left. lia.
Defined.

(** C4, counterexample: source 5 enabled beforehand (enable word 0 holds
    [0x20]); after enabling and disabling it the word holds 0 and the
    source is disabled: the bitmap is not what it was. *)
Lemma enable_then_disable_counterexample :
  source_enabled PLIC_IOBASE_default (with_register 0x0C002000 0x20) 5 = true /\
  source_enabled PLIC_IOBASE_default
    (exec (plic_disable_source_for_context PLIC_IOBASE_default 0 5)
       (exec (plic_enable_source_for_context PLIC_IOBASE_default 0 5)
          (with_register 0x0C002000 0x20))) 5 = false /\
  mem (exec (plic_disable_source_for_context PLIC_IOBASE_default 0 5)
         (exec (plic_enable_source_for_context PLIC_IOBASE_default 0 5)
            (with_register 0x0C002000 0x20))) 0x0C002000 <>
  mem (with_register 0x0C002000 0x20) 0x0C002000.
Proof. repeat split; vm_compute; discriminate. Qed.

(** C5, witness: source 37 is bit 5 of enable word 1, at [0x0C002004]. *)
Lemma enable_disable_touch_one_bit_witness :
  Z.testbit
    (mem (exec (plic_enable_source_for_context PLIC_IOBASE_default 0 37)
            reset_state) 0x0C002004) 5 = true /\
  Z.testbit
    (mem (exec (plic_disable_source_for_context PLIC_IOBASE_default 0 37)
            (with_register 0x0C002004 0xFF)) 0x0C002004) 5 = false /\
  Z.testbit
    (mem (exec (plic_disable_source_for_context PLIC_IOBASE_default 0 37)
            (with_register 0x0C002004 0xFF)) 0x0C002004) 4 = true.
Proof.
  destruct (enable_disable_touch_one_bit PLIC_IOBASE_default default_window 37
              reset_state) as [[Hset _] _]; [unfold PLIC_SRCCNT; lia |].
  destruct (enable_disable_touch_one_bit PLIC_IOBASE_default default_window 37
              (with_register 0x0C002004 0xFF)) as [_ [Clr [Keep _]]];
    [unfold PLIC_SRCCNT; lia |].
  split; [exact Hset | split; [exact Clr |]].
  etransitivity; [apply (Keep 4); [lia | vm_compute; discriminate] | reflexivity].
Defined.

(** C6: [plic_source_pending] turns away only ids above [PLIC_SRCCNT].
    For id 0 it reports bit 0 of pending word 0, for id 1024 bit 0 of the
    word after the 32 pending words. *)
Theorem source_pending_0_and_1024 :
  result (plic_source_pending PLIC_IOBASE_default 0)
    (with_register 0x0C001000 1) = 1 /\
  result (plic_source_pending PLIC_IOBASE_default 1024)
    (with_register 0x0C001080 1) = 1.
Proof. split; vm_compute; reflexivity. Qed.

(** C7, witness: [irq = -1] logs and touches nothing; [irq = 5] with
    levels 0 to 7 leaves 0 in the priority register of source 5. *)
Lemma disable_irq_behaviour_witness :
  exec (plic_disable_irq PLIC_IOBASE_default 0 7 (-1)) (with_register 0x0C000014 3) =
  mkState (mem (with_register 0x0C000014 3)) []
    [DebugMsg "plic_disable_irq called with irqno = %d" [AInt (-1)]] /\
  priority PLIC_IOBASE_default
    (exec (plic_disable_irq PLIC_IOBASE_default 0 7 5)
       (with_register 0x0C000014 3)) 5 = 0.
Proof.
  split.
  - apply (disable_irq_behaviour PLIC_IOBASE_default 0 7 default_window
             levels_0_7 (-1) (with_register 0x0C000014 3)); lia.
  - apply (disable_irq_behaviour PLIC_IOBASE_default 0 7 default_window
             levels_0_7 5 (with_register 0x0C000014 3));
      unfold PLIC_SRCCNT; lia.
Defined.

(** C7, counterexample: [irq = 2000] is positive, yet the call accesses
    no register and the word at the priority offset of 2000 keeps its 5,
    whether the minimum priority is 0 or 1. *)
Lemma disable_irq_counterexample :
  (priority PLIC_IOBASE_default
     (exec (plic_disable_irq PLIC_IOBASE_default 0 7 2000)
        (with_register (0x0C000000 + 4 * 2000) 5)) 2000 <> 0 /\
   accesses (exec (plic_disable_irq PLIC_IOBASE_default 0 7 2000)
               (with_register (0x0C000000 + 4 * 2000) 5)) = []) /\
  (priority PLIC_IOBASE_default
     (exec (plic_disable_irq PLIC_IOBASE_default 1 7 2000)
        (with_register (0x0C000000 + 4 * 2000) 5)) 2000 <> 1 /\
   accesses (exec (plic_disable_irq PLIC_IOBASE_default 1 7 2000)
               (with_register (0x0C000000 + 4 * 2000) 5)) = []).
Proof.
  repeat split; vm_compute; try discriminate; reflexivity.
Qed.

(** C8, witness: level 8 stays 8. *)
Lemma set_context_threshold_stores_witness :
  context_threshold PLIC_IOBASE_default
    (exec (plic_set_context_threshold PLIC_IOBASE_default 0 8) reset_state) = 8.
Proof.
  apply (set_context_threshold_stores PLIC_IOBASE_default 1 7 default_window
           levels_1_7 8 reset_state). lia.
Defined.

(** C8, counterexample: with levels 1 to 7, threshold [7 + 1] is stored as
    8, not as the clamp 7. *)
Lemma set_context_threshold_counterexample :
  context_threshold PLIC_IOBASE_default
    (exec (plic_set_context_threshold PLIC_IOBASE_default 0 (7 + 1))
       reset_state) <> clamp (7 + 1) 1 7.
Proof. vm_compute. discriminate. Qed.

(** C9, witness: source 37 at the default base. *)
Lemma register_addresses_witness :
  addresses reset_state
    (exec (plic_set_source_priority PLIC_IOBASE_default 1 7 37 3) reset_state) =
  [0x0C000000 + 4 * 37] /\
  addresses reset_state
    (exec (plic_enable_source_for_context PLIC_IOBASE_default 0 37) reset_state) =
  [0x0C000000 + 0x2000 + 4 * (37 / 32); 0x0C000000 + 0x2000 + 4 * (37 / 32)] /\
  reaches_only (init_register PLIC_IOBASE_default) reset_state
    (exec (plic_init PLIC_IOBASE_default 1 7) reset_state).
Proof.
  destruct (register_addresses PLIC_IOBASE_default 1 7 default_window
              0 37 3 37 3 reset_state) as [All Valid]; [lia |].
  destruct Valid as [P [_ [E _]]]; [unfold PLIC_SRCCNT; lia | lia |].
  split; [exact P | split; [exact E |]].
  apply All.
Defined.

(** C10: [irqno = 1024] is no valid source id, yet
    [plic_enable_irq (1024, 3)] stores 3 at [PLIC_IOBASE + 0x1000], the
    first pending word. *)
Theorem enable_irq_1024_writes :
  accesses (exec (plic_enable_irq PLIC_IOBASE_default 1 7 1024 3) reset_state) =
  [Wr 0x0C001000 3] /\
  mem (exec (plic_enable_irq PLIC_IOBASE_default 1 7 1024 3) reset_state)
    0x0C001000 = 3.
Proof. split; vm_compute; reflexivity. Qed.

(** ** Instances of the further properties *)

Lemma with_register_ok (a v : Z) :
  0 <= v < 2 ^ 32 -> mem_ok (mem (with_register a v)).
Proof.
  intros Hv a'. unfold with_register, update. cbn [mem].
  destruct (a' =? a); [exact Hv | cbn; lia].
Qed.

(** Source 37 is bit 5 of pending word 1; id 2000 is out of range. *)
Lemma source_pending_result_witness :
  result (plic_source_pending PLIC_IOBASE_default 37)
    (with_register 0x0C001004 0x20) = 1 /\
  result (plic_source_pending PLIC_IOBASE_default 2000)
    (with_register 0x0C001004 0x20) = 0.
Proof.
  split.
  - apply (source_pending_result PLIC_IOBASE_default default_window 37
             (with_register 0x0C001004 0x20)). lia.
  - apply (source_pending_result PLIC_IOBASE_default default_window 2000
             (with_register 0x0C001004 0x20)). lia.
Defined.

(** Context 1. *)
Lemma other_context_ignored_witness :
  exec (plic_enable_source_for_context PLIC_IOBASE_default 1 5) reset_state =
    reset_state /\
  plic_claim_context_interrupt PLIC_IOBASE_default 1
    (with_register 0x0C200004 5) = (0, with_register 0x0C200004 5).
Proof.
  split.
  - apply (other_context_ignored PLIC_IOBASE_default 1 5 0 reset_state).
    discriminate.
  - apply (other_context_ignored PLIC_IOBASE_default 1 5 0
             (with_register 0x0C200004 5)).
    discriminate.
Defined.

(** The claim register holds 5. *)
Lemma claim_irq_reads_claim_register_witness :
  result (plic_claim_irq PLIC_IOBASE_default) (with_register 0x0C200004 5) = 5.
Proof.
  destruct (claim_irq_reads_claim_register PLIC_IOBASE_default default_window
              (with_register 0x0C200004 5)) as [_ [Small _]].
  apply Small. vm_compute. split; [discriminate | reflexivity].
Defined.

(** Closing source 5. *)
Lemma close_irq_behaviour_witness :
  mem (exec (plic_close_irq PLIC_IOBASE_default 5) reset_state) 0x0C200004 = 5.
Proof.
  apply (close_irq_behaviour PLIC_IOBASE_default default_window 5 reset_state).
  - lia.
  - unfold PLIC_SRCCNT. lia.
Defined.

(** Claiming 5 and closing it. *)
Lemma claim_then_close_witness :
  mem (exec (plic_close_irq PLIC_IOBASE_default
               (result (plic_claim_irq PLIC_IOBASE_default)
                  (with_register 0x0C200004 5)))
         (exec (plic_claim_irq PLIC_IOBASE_default)
            (with_register 0x0C200004 5))) 0x0C200004 = 5.
Proof.
  apply (claim_then_close PLIC_IOBASE_default default_window
           (with_register 0x0C200004 5) 0x0C200004).
  apply with_register_ok. lia.
Defined.

(** Level 107 with levels 1 to 7. *)
Lemma set_source_priority_not_clamped_witness :
  priority PLIC_IOBASE_default
    (exec (plic_set_source_priority PLIC_IOBASE_default 1 7 5 107) reset_state) 5 =
  107.
Proof.
  apply (set_source_priority_not_clamped PLIC_IOBASE_default 1 7
           default_window levels_1_7 5 107 reset_state).
  - unfold PLIC_SRCCNT. lia.
  - lia.
Defined.

(** The threshold holds 2 before and after a priority store. *)
Lemma set_source_priority_touches_one_register_witness :
  context_threshold PLIC_IOBASE_default
    (exec (plic_set_source_priority PLIC_IOBASE_default 1 7 5 3)
       (with_register 0x0C200000 2)) = 2.
Proof.
  apply (set_source_priority_touches_one_register PLIC_IOBASE_default 1 7
           default_window 5 3 (with_register 0x0C200000 2)).
  unfold PLIC_SRCCNT. lia.
Defined.

(** Priority -1 is stored as [2 ^ 32 - 1]. *)
Lemma enable_irq_sets_priority_witness :
  priority PLIC_IOBASE_default
    (exec (plic_enable_irq PLIC_IOBASE_default 1 7 5 (-1)) reset_state) 5 =
  2 ^ 32 - 1.
Proof.
  apply (enable_irq_sets_priority PLIC_IOBASE_default 1 7
           default_window levels_1_7 5 (-1) reset_state).
  - unfold PLIC_SRCCNT. lia.
  - lia.
  - vm_compute. discriminate.
Defined.

Lemma enable_irq_idempotent_witness :
  mem (exec (plic_enable_irq PLIC_IOBASE_default 1 7 5 3)
         (exec (plic_enable_irq PLIC_IOBASE_default 1 7 5 3) reset_state))
      0x0C000014 =
  mem (exec (plic_enable_irq PLIC_IOBASE_default 1 7 5 3) reset_state) 0x0C000014.
Proof.
  exact (enable_irq_idempotent PLIC_IOBASE_default 1 7 default_window
           5 3 reset_state 0x0C000014).
Defined.

(** With minimum 1, disabling source 5 leaves its priority 3 in place. *)
Lemma disable_irq_level_rejected_witness :
  exec (plic_disable_irq PLIC_IOBASE_default 1 7 5) (with_register 0x0C000014 3) =
  with_register 0x0C000014 3.
Proof.
  apply (disable_irq_level_rejected PLIC_IOBASE_default 1 7 5
           (with_register 0x0C000014 3)); lia.
Defined.

Lemma init_then_enable_irq_witness :
  source_enabled PLIC_IOBASE_default
    (exec (plic_enable_irq PLIC_IOBASE_default 1 7 5 3)
       (exec (plic_init PLIC_IOBASE_default 1 7) reset_state)) 5 = true /\
  priority PLIC_IOBASE_default
    (exec (plic_enable_irq PLIC_IOBASE_default 1 7 5 3)
       (exec (plic_init PLIC_IOBASE_default 1 7) reset_state)) 5 = 3.
Proof.
  apply (init_then_enable_irq PLIC_IOBASE_default 1 7 default_window
           levels_1_7 5 3 reset_state).
  - unfold PLIC_SRCCNT. lia.
  - lia.
Defined.

(** The threshold holds 2 before and after [plic_init]. *)
Lemma plic_init_frame_witness :
  context_threshold PLIC_IOBASE_default
    (exec (plic_init PLIC_IOBASE_default 1 7) (with_register 0x0C200000 2)) = 2.
Proof.
  apply (plic_init_frame PLIC_IOBASE_default 1 7 default_window
           (with_register 0x0C200000 2)).
Defined.

(** With minimum 1, source 5 keeps priority 3 through [plic_init]. *)
Lemma plic_init_level_rejected_witness :
  priority PLIC_IOBASE_default
    (exec (plic_init PLIC_IOBASE_default 1 7) (with_register 0x0C000014 3)) 5 = 3.
Proof.
  apply (plic_init_level_rejected PLIC_IOBASE_default 1 7 default_window
           (with_register 0x0C000014 3)).
  - lia.
  - unfold PLIC_SRCCNT. lia.
Defined.

Lemma plic_init_twice_witness :
  source_enabled PLIC_IOBASE_default
    (exec (plic_init PLIC_IOBASE_default 0 7)
       (exec (plic_init PLIC_IOBASE_default 0 7) reset_state)) 5 =
  source_enabled PLIC_IOBASE_default
    (exec (plic_init PLIC_IOBASE_default 0 7) reset_state) 5.
Proof.
  apply (plic_init_twice PLIC_IOBASE_default 0 7 default_window levels_0_7
           reset_state 5).
  unfold PLIC_SRCCNT. lia.
Defined.

Lemma enable_disable_idempotent_witness :
  mem (exec (plic_enable_source_for_context PLIC_IOBASE_default 0 5)
         (exec (plic_enable_source_for_context PLIC_IOBASE_default 0 5)
            reset_state)) 0x0C002000 =
  mem (exec (plic_enable_source_for_context PLIC_IOBASE_default 0 5)
         reset_state) 0x0C002000.
Proof.
  apply (enable_disable_idempotent PLIC_IOBASE_default default_window 5
           reset_state 0x0C002000).
Defined.

(** Sources 5 and 6 share enable word 0. *)
Lemma distinct_sources_commute_witness :
  mem (exec (plic_disable_source_for_context PLIC_IOBASE_default 0 6)
         (exec (plic_enable_source_for_context PLIC_IOBASE_default 0 5)
            (with_register 0x0C002000 0xFF))) 0x0C002000 =
  mem (exec (plic_enable_source_for_context PLIC_IOBASE_default 0 5)
         (exec (plic_disable_source_for_context PLIC_IOBASE_default 0 6)
            (with_register 0x0C002000 0xFF))) 0x0C002000.
Proof.
  apply (distinct_sources_commute PLIC_IOBASE_default default_window 5 6
           (with_register 0x0C002000 0xFF) 0x0C002000).
  discriminate.
Defined.

Lemma disable_then_enable_witness :
  source_enabled PLIC_IOBASE_default
    (exec (plic_enable_source_for_context PLIC_IOBASE_default 0 5)
       (exec (plic_disable_source_for_context PLIC_IOBASE_default 0 5)
          reset_state)) 5 = true.
Proof.
  apply (disable_then_enable PLIC_IOBASE_default default_window 5 reset_state).
  unfold PLIC_SRCCNT. lia.
Defined.

(** Source id 0. *)
Lemma invalid_source_ignored_witness :
  exec (plic_set_source_priority PLIC_IOBASE_default 1 7 0 7) reset_state =
    reset_state /\
  exec (plic_complete_context_interrupt PLIC_IOBASE_default 0 2000) reset_state =
    reset_state.
Proof.
  split.
  - apply (invalid_source_ignored PLIC_IOBASE_default 1 7 0 0 7 reset_state).
    left. reflexivity.
  - apply (invalid_source_ignored PLIC_IOBASE_default 1 7 0 2000 7 reset_state).
    right. unfold PLIC_SRCCNT. lia.
Defined.

(** [irqno = -1]. *)
Lemma enable_irq_invalid_witness :
  exec (plic_enable_irq PLIC_IOBASE_default 1 7 (-1) 3) reset_state =
  mkState (mem reset_state) []
    [TraceMsg "%s(irqno=%d,prio=%d)"
       [AStr "plic_enable_irq"; AInt (-1); AInt 3]].
Proof.
  apply (enable_irq_invalid PLIC_IOBASE_default 1 7 (-1) 3 reset_state); lia.
Defined.
